(** * Lead-capture step-flow pages: attribution label, contact field, submission

    A shallow embedding of the two page components of the repository,
    [src/app/page.tsx] (campaign constant "바로폼", wizard starting at step 1)
    and [src/unnamed/part_000] (campaign constant "취업상담신청", wizard
    starting at step 2), followed by the properties their specification
    states about them.

    ECMAScript strings are sequences of UTF-16 code units; [length], [slice],
    [startsWith] and regular expressions without the [u] flag all work on code
    units.  They are modelled as [list N]. *)

From Stdlib Require Import Strings.String Strings.Ascii.
From Stdlib Require Import List NArith Bool Arith Lia.
Import ListNotations.

(* ================================================================= *)
(** ** ECMAScript strings *)

Module JS.

Definition code_unit := N.
Definition jsstring := list code_unit.

(** UTF-8 decoding of the literals of this file into code units, so that
    the constants of the source can be written as they appear there.
    Code points above the basic plane become a surrogate pair. *)
Definition cont (b : N) : N := N.land b 63.

Fixpoint utf16_of_utf8 (bs : list N) : jsstring :=
  match bs with
  | [] => []
  | b0 :: r0 =>
      if (b0 <? 128)%N then b0 :: utf16_of_utf8 r0
      else if (b0 <? 224)%N then
        match r0 with
        | b1 :: r1 =>
            (N.shiftl (N.land b0 31) 6 + cont b1)%N :: utf16_of_utf8 r1
        | [] => []
        end
      else if (b0 <? 240)%N then
        match r0 with
        | b1 :: b2 :: r2 =>
            (N.shiftl (N.land b0 15) 12 + N.shiftl (cont b1) 6 + cont b2)%N
              :: utf16_of_utf8 r2
        | _ => []
        end
      else
        match r0 with
        | b1 :: b2 :: b3 :: r3 =>
            let cp := (N.shiftl (N.land b0 7) 18 + N.shiftl (cont b1) 12
                       + N.shiftl (cont b2) 6 + cont b3)%N in
            let v := (cp - 65536)%N in
            (55296 + N.shiftr v 10)%N :: (56320 + N.land v 1023)%N
              :: utf16_of_utf8 r3
        | _ => []
        end
  end.

Definition lit (s : string) : jsstring :=
  utf16_of_utf8 (map (fun b => N_of_ascii (ascii_of_byte b))
                     (list_byte_of_string s)).

(** [a === b] on strings. *)
Fixpoint str_eqb (a b : jsstring) : bool :=
  match a, b with
  | [], [] => true
  | x :: a', y :: b' => (x =? y)%N && str_eqb a' b'
  | _, _ => false
  end.

(** [s.startsWith(p)] *)
Fixpoint startsWith (s p : jsstring) : bool :=
  match p, s with
  | [], _ => true
  | y :: p', x :: s' => (x =? y)%N && startsWith s' p'
  | _ :: _, [] => false
  end.

(** [s.slice(from)] and [s.slice(from, to)] for the non-negative constant
    bounds the source uses; both clamp at the end of the string. *)
Definition slice_from (s : jsstring) (from : nat) : jsstring := skipn from s.
Definition slice (s : jsstring) (from to : nat) : jsstring :=
  firstn (to - from) (skipn from s).

(** The character class [0-9]. *)
Definition is_digit (c : code_unit) : bool := ((48 <=? c) && (c <=? 57))%N.

(** The character class [\s]: WhiteSpace and LineTerminator code points. *)
Definition is_space (c : code_unit) : bool :=
  ((9 <=? c) && (c <=? 13))%N
  || (c =? 32)%N || (c =? 160)%N || (c =? 5760)%N
  || ((8192 <=? c) && (c <=? 8202))%N
  || (c =? 8232)%N || (c =? 8233)%N || (c =? 8239)%N || (c =? 8287)%N
  || (c =? 12288)%N || (c =? 65279)%N.

Definition hyphen : code_unit := 45%N.

(** [s.replace(/[^0-9]/g, '')] *)
Definition strip_non_digits (s : jsstring) : jsstring := filter is_digit s.

(** [s.replace(/[-\s]/g, '')] *)
Definition strip_separators (s : jsstring) : jsstring :=
  filter (fun c => negb ((c =? hyphen)%N || is_space c)) s.

(** [s.replace('-', '')]: a string pattern replaces the first occurrence
    only. *)
Fixpoint remove_first_hyphen (s : jsstring) : jsstring :=
  match s with
  | [] => []
  | c :: r => if (c =? hyphen)%N then r else c :: remove_first_hyphen r
  end.

(** Truthiness of a [string | null] value: [null] and the empty string are
    falsy. *)
Definition truthy (v : option jsstring) : bool :=
  match v with
  | Some (_ :: _) => true
  | _ => false
  end.

(** Truthiness of a string. *)
Definition nonempty (s : jsstring) : bool :=
  match s with [] => false | _ :: _ => true end.

End JS.

Import JS.

(* ================================================================= *)
(** ** Attribution label ([formatClickSource], [ClickSourceHandler]) *)

Module Attribution.

(** What reading a property of the [sourceMap] object literal yields. *)
Inductive prop_value :=
| Str (s : jsstring)        (* an own property: a display name *)
| Obj (rendered : jsstring) (* a member inherited from Object.prototype,
                               with the text a template literal gives it *)
| Undefined.

(** The own properties of [sourceMap], in source order. *)
Definition sourceMap : list (jsstring * jsstring) :=
  [ (lit "daangn",    lit "당근");
    (lit "insta",     lit "인스타");
    (lit "facebook",  lit "페이스북");
    (lit "google",    lit "구글");
    (lit "youtube",   lit "유튜브");
    (lit "kakao",     lit "카카오");
    (lit "naver",     lit "네이버");
    (lit "naverblog", lit "네이버블로그");
    (lit "toss",      lit "토스");
    (lit "mamcafe",   lit "맘카페") ].

Fixpoint own_property (tbl : list (jsstring * jsstring)) (key : jsstring)
  : option jsstring :=
  match tbl with
  | [] => None
  | (k, v) :: rest => if str_eqb k key then Some v else own_property rest key
  end.

Section WithPrototype.

(** [sourceMap] is a plain object, so a key that is not an own property
    is looked up on Object.prototype ("constructor", "toString", ...).
    [proto_member key] is the rendered text of that member when the key
    names one; which keys do, and the text, depend on the engine. *)
Variable proto_member : jsstring -> option jsstring.

(** [sourceMap[key]] *)
Definition sourceMap_get (key : jsstring) : prop_value :=
  match own_property sourceMap key with
  | Some v => Str v
  | None =>
      match proto_member key with
      | Some t => Obj t
      | None => Undefined
      end
  end.

(** [sourceMap[utmSource] || utmSource], as rendered in the template. *)
Definition shortSource (utmSource : jsstring) : jsstring :=
  match sourceMap_get utmSource with
  | Str (c :: r) => c :: r
  | Str [] => utmSource
  | Obj t => t
  | Undefined => utmSource
  end.

Definition underscore : jsstring := lit "_".
Definition material_token : jsstring := lit "_소재_".

(** A [string | null] value inside a template literal. *)
Definition render (v : option jsstring) : jsstring :=
  match v with
  | Some s => s
  | None => lit "null"
  end.

(** The body shared by both pages; they differ in [homepageName] only. *)
Definition formatClickSource_with (homepageName : jsstring)
    (utmSource : jsstring) (materialId blogId cafeId : option jsstring)
  : jsstring :=
  let shortSource := shortSource utmSource in
  if truthy blogId then
    homepageName ++ underscore ++ shortSource ++ underscore
      ++ render blogId
  else if truthy cafeId then
    homepageName ++ underscore ++ shortSource ++ underscore
      ++ render cafeId
  else if truthy materialId then
    homepageName ++ underscore ++ shortSource ++ material_token
      ++ render materialId
  else
    homepageName ++ underscore ++ shortSource.

(** The URL parameters [ClickSourceHandler] reads;
    [searchParams.get] returns [null] for a missing parameter. *)
Record SearchParams := {
  utm_source : option jsstring;
  material_id : option jsstring;
  blog_id : option jsstring;
  cafe_id : option jsstring
}.

(** The effect of [ClickSourceHandler] on the [clickSource] state of the
    page: it is replaced only when [utm_source] is truthy. *)
Definition ClickSourceHandler_with (homepageName : jsstring)
    (q : SearchParams) (clickSource : jsstring) : jsstring :=
  match utm_source q with
  | Some (c :: r) =>
      formatClickSource_with homepageName (c :: r)
        (material_id q) (blog_id q) (cafe_id q)
  | _ => clickSource
  end.

End WithPrototype.

End Attribution.

(* ================================================================= *)
(** ** Contact field ([formatContact], [validateContact]) *)

Module Contact.

Definition dash : jsstring := [hyphen].

(** 연락처 포맷팅 (010-XXXX-XXXX) *)
Definition formatContact (value : jsstring) : jsstring :=
  let cleaned := strip_non_digits value in
  if length cleaned <=? 3 then cleaned
  else if length cleaned <=? 7 then
    slice cleaned 0 3 ++ dash ++ slice_from cleaned 3
  else
    slice cleaned 0 3 ++ dash ++ slice cleaned 3 7 ++ dash
      ++ slice cleaned 7 11.

Definition prefix_error : jsstring :=
  lit "010 또는 011로 시작하는 번호를 입력해주세요".

(** 연락처 검증.  Every path calls [setContactError] once: the result is
    the returned boolean together with the value given to the setter. *)
Definition validateContact (contact : jsstring) : bool * jsstring :=
  let cleaned := strip_separators contact in
  if length cleaned =? 0 then (true, [])
  else if negb (startsWith cleaned (lit "010"))
          && negb (startsWith cleaned (lit "011"))
  then (false, prefix_error)
  else (true, []).

(** [contact.replace(/[-\s]/g, '').length >= 10], the contact conjunct of
    [isFormValid] on both pages. *)
Definition contact_long_enough (contact : jsstring) : bool :=
  10 <=? length (strip_separators contact).

End Contact.

(* ================================================================= *)
(** ** The awaited network call *)

Module Fetch.

(** A value caught by [catch (error)]. *)
Inductive thrown :=
| ErrorInstance (message : jsstring)   (* [error instanceof Error] *)
| NotAnError.

(** How [await response.json()] settles.  The body of a failure response
    is taken to be an object whose [error] member, when there is one, is a
    string. *)
Inductive body :=
| BodyRejects (e : thrown)
| BodyJson (error : option jsstring).

(** How [await fetch(...)] settles: it rejects (a network failure), or it
    resolves with a response carrying [ok] and a body. *)
Inductive outcome :=
| Rejects (e : thrown)
| Resolves (ok : bool) (b : body).

Definition save_failed : jsstring := lit "저장에 실패했습니다.".
Definition save_failed_retry : jsstring :=
  lit "저장에 실패했습니다. 다시 시도해주세요.".

(** [errorData.error || "저장에 실패했습니다."] *)
Definition error_or_default (error : option jsstring) : jsstring :=
  if truthy error then Attribution.render error else save_failed.

(** What the [try] block does once the call has settled: [None] when it
    runs to [setStep(3)], [Some e] when it throws [e]. *)
Definition try_result (o : outcome) : option thrown :=
  match o with
  | Rejects e => Some e
  | Resolves true _ => None
  | Resolves false (BodyRejects e) => Some e
  | Resolves false (BodyJson error) =>
      Some (ErrorInstance (error_or_default error))
  end.

(** The argument of [alert] in the [catch] block. *)
Definition alert_text (e : thrown) : jsstring :=
  match e with
  | ErrorInstance message => message
  | NotAnError => save_failed_retry
  end.

End Fetch.

(* ================================================================= *)
(** ** Second variant: [src/unnamed/part_000] *)

Module Part000.

Definition homepageName : jsstring := lit "취업상담신청".

Definition formatClickSource (proto_member : jsstring -> option jsstring) :=
  Attribution.formatClickSource_with proto_member homepageName.

Definition formatContact := Contact.formatContact.
Definition validateContact := Contact.validateContact.

(** The type of [employment_support_fund]:
    the empty string, "희망함" or "희망하지 않음". *)
Inductive SupportFund := FundUnset | FundHope | FundNoHope.

Definition SupportFund_text (f : SupportFund) : jsstring :=
  match f with
  | FundUnset => []
  | FundHope => lit "희망함"
  | FundNoHope => lit "희망하지 않음"
  end.

Record FormData := {
  name : jsstring;
  contact : jsstring;
  service_practice : bool;
  service_employment : bool;
  practice_planned_date : jsstring;
  employment_hope_time : jsstring;
  employment_support_fund : SupportFund
}.

(** The object literal [submitData] of [handleSubmit]. *)
Record SubmitData := {
  sd_name : jsstring;
  sd_contact : jsstring;
  sd_service_practice : bool;
  sd_service_employment : bool;
  sd_practice_planned_date : option jsstring;   (* [None] is [null] *)
  sd_employment_hope_time : jsstring;
  sd_employment_support_fund : bool;
  sd_privacy_agreed : bool;
  sd_click_source : jsstring;
  sd_type : jsstring
}.

(** The state of [StepFlowPage] and [StepFlowContent], followed by what
    the component has done to its environment: the alerts shown, the
    values logged with [console.error] and the request bodies sent. *)
Record State := {
  clickSource : jsstring;
  step : nat;
  formData : FormData;
  loading : bool;
  contactError : jsstring;
  privacyAgreed : bool;
  showPrivacyModal : bool;
  alerts : list jsstring;
  console_errors : list Fetch.thrown;
  requests : list SubmitData
}.

Definition initial : State := {|
  clickSource := homepageName;
  step := 2;                      (* step1 숨김, step2부터 시작 *)
  formData := {| name := []; contact := [];
                 service_practice := false; service_employment := false;
                 practice_planned_date := [];
                 employment_hope_time := [];
                 employment_support_fund := FundUnset |};
  loading := false;
  contactError := [];
  privacyAgreed := false;
  showPrivacyModal := false;
  alerts := [];
  console_errors := [];
  requests := []
|}.

(** *** State setters *)

Definition setClickSource (v : jsstring) (st : State) : State :=
  {| clickSource := v; step := step st; formData := formData st;
     loading := loading st; contactError := contactError st;
     privacyAgreed := privacyAgreed st;
     showPrivacyModal := showPrivacyModal st; alerts := alerts st;
     console_errors := console_errors st; requests := requests st |}.

Definition setStep (v : nat) (st : State) : State :=
  {| clickSource := clickSource st; step := v; formData := formData st;
     loading := loading st; contactError := contactError st;
     privacyAgreed := privacyAgreed st;
     showPrivacyModal := showPrivacyModal st; alerts := alerts st;
     console_errors := console_errors st; requests := requests st |}.

Definition setFormData (v : FormData) (st : State) : State :=
  {| clickSource := clickSource st; step := step st; formData := v;
     loading := loading st; contactError := contactError st;
     privacyAgreed := privacyAgreed st;
     showPrivacyModal := showPrivacyModal st; alerts := alerts st;
     console_errors := console_errors st; requests := requests st |}.

Definition setLoading (v : bool) (st : State) : State :=
  {| clickSource := clickSource st; step := step st;
     formData := formData st; loading := v;
     contactError := contactError st; privacyAgreed := privacyAgreed st;
     showPrivacyModal := showPrivacyModal st; alerts := alerts st;
     console_errors := console_errors st; requests := requests st |}.

Definition setContactError (v : jsstring) (st : State) : State :=
  {| clickSource := clickSource st; step := step st;
     formData := formData st; loading := loading st; contactError := v;
     privacyAgreed := privacyAgreed st;
     showPrivacyModal := showPrivacyModal st; alerts := alerts st;
     console_errors := console_errors st; requests := requests st |}.

Definition setPrivacyAgreed (v : bool) (st : State) : State :=
  {| clickSource := clickSource st; step := step st;
     formData := formData st; loading := loading st;
     contactError := contactError st; privacyAgreed := v;
     showPrivacyModal := showPrivacyModal st; alerts := alerts st;
     console_errors := console_errors st; requests := requests st |}.

Definition setShowPrivacyModal (v : bool) (st : State) : State :=
  {| clickSource := clickSource st; step := step st;
     formData := formData st; loading := loading st;
     contactError := contactError st; privacyAgreed := privacyAgreed st;
     showPrivacyModal := v; alerts := alerts st;
     console_errors := console_errors st; requests := requests st |}.

(** [alert(msg)] *)
Definition alert (msg : jsstring) (st : State) : State :=
  {| clickSource := clickSource st; step := step st;
     formData := formData st; loading := loading st;
     contactError := contactError st; privacyAgreed := privacyAgreed st;
     showPrivacyModal := showPrivacyModal st;
     alerts := alerts st ++ [msg];
     console_errors := console_errors st; requests := requests st |}.

(** [console.error('Error submitting form:', error)] *)
Definition console_error (e : Fetch.thrown) (st : State) : State :=
  {| clickSource := clickSource st; step := step st;
     formData := formData st; loading := loading st;
     contactError := contactError st; privacyAgreed := privacyAgreed st;
     showPrivacyModal := showPrivacyModal st; alerts := alerts st;
     console_errors := console_errors st ++ [e];
     requests := requests st |}.

(** [fetch('/api/consultations', { method: 'POST', body })] is issued. *)
Definition post (d : SubmitData) (st : State) : State :=
  {| clickSource := clickSource st; step := step st;
     formData := formData st; loading := loading st;
     contactError := contactError st; privacyAgreed := privacyAgreed st;
     showPrivacyModal := showPrivacyModal st; alerts := alerts st;
     console_errors := console_errors st;
     requests := requests st ++ [d] |}.

(** *** Updates of the form record, [{ ...formData, field: v }] *)

Definition with_name (v : jsstring) (fd : FormData) : FormData :=
  {| name := v; contact := contact fd;
     service_practice := service_practice fd;
     service_employment := service_employment fd;
     practice_planned_date := practice_planned_date fd;
     employment_hope_time := employment_hope_time fd;
     employment_support_fund := employment_support_fund fd |}.

Definition with_contact (v : jsstring) (fd : FormData) : FormData :=
  {| name := name fd; contact := v;
     service_practice := service_practice fd;
     service_employment := service_employment fd;
     practice_planned_date := practice_planned_date fd;
     employment_hope_time := employment_hope_time fd;
     employment_support_fund := employment_support_fund fd |}.

Definition with_services (practice employment : bool) (fd : FormData)
  : FormData :=
  {| name := name fd; contact := contact fd;
     service_practice := practice;
     service_employment := employment;
     practice_planned_date := practice_planned_date fd;
     employment_hope_time := employment_hope_time fd;
     employment_support_fund := employment_support_fund fd |}.

Definition with_practice_planned_date (v : jsstring) (fd : FormData)
  : FormData :=
  {| name := name fd; contact := contact fd;
     service_practice := service_practice fd;
     service_employment := service_employment fd;
     practice_planned_date := v;
     employment_hope_time := employment_hope_time fd;
     employment_support_fund := employment_support_fund fd |}.

Definition with_employment_hope_time (v : jsstring) (fd : FormData)
  : FormData :=
  {| name := name fd; contact := contact fd;
     service_practice := service_practice fd;
     service_employment := service_employment fd;
     practice_planned_date := practice_planned_date fd;
     employment_hope_time := v;
     employment_support_fund := employment_support_fund fd |}.

Definition with_employment_support_fund (v : SupportFund) (fd : FormData)
  : FormData :=
  {| name := name fd; contact := contact fd;
     service_practice := service_practice fd;
     service_employment := service_employment fd;
     practice_planned_date := practice_planned_date fd;
     employment_hope_time := employment_hope_time fd;
     employment_support_fund := v |}.

(** *** The functions of [StepFlowContent] *)

(** 실습예정일 20XX-MM 형식 *)
Definition formatPracticeDate (value : jsstring) : jsstring :=
  let digits := slice (strip_non_digits value) 0 6 in
  if length digits <=? 4 then digits
  else slice digits 0 4 ++ Contact.dash ++ slice_from digits 4.

Definition type_both : jsstring := lit "실습+취업".
Definition type_practice : jsstring := lit "실습".
Definition type_employment : jsstring := lit "취업".

Definition submitData (st : State) : SubmitData :=
  let fd := formData st in
  {| sd_name := name fd;
     sd_contact := contact fd;
     sd_service_practice := service_practice fd;
     sd_service_employment := service_employment fd;
     sd_practice_planned_date :=
       if service_practice fd
       then Some (remove_first_hyphen (practice_planned_date fd))
       else None;
     sd_employment_hope_time := employment_hope_time fd;
     sd_employment_support_fund :=
       str_eqb (SupportFund_text (employment_support_fund fd))
               (lit "희망함");
     sd_privacy_agreed := privacyAgreed st;
     sd_click_source := clickSource st;
     sd_type :=
       if service_practice fd && service_employment fd then type_both
       else if service_practice fd then type_practice
       else type_employment |}.

(** [handleSubmit] up to its [await]: the busy flag is raised and the
    request leaves with the payload built from the current state. *)
Definition handleSubmit_begin (st : State) : State :=
  post (submitData st) (setLoading true st).

(** [handleSubmit] from the [await] on, once the call has settled as [o]:
    the rest of [try], then [catch], then [finally]. *)
Definition handleSubmit_settle (o : Fetch.outcome) (st : State) : State :=
  let st' :=
    match Fetch.try_result o with
    | None => setStep 3 st
    | Some e => alert (Fetch.alert_text e) (console_error e st)
    end in
  setLoading false st'.

(** A whole run of [handleSubmit] whose network call settles as [o]. *)
Definition handleSubmit (o : Fetch.outcome) (st : State) : State :=
  handleSubmit_settle o (handleSubmit_begin st).

(** 유효성 검사 *)
Definition isFormValid (st : State) : bool :=
  let fd := formData st in
  (0 <? length (name fd))
  && Contact.contact_long_enough (contact fd)
  && negb (nonempty (contactError st))
  && (service_practice fd || service_employment fd)
  && (negb (service_practice fd)
      || (length (practice_planned_date fd) =? 7))
  && (0 <? length (employment_hope_time fd))
  && negb (str_eqb (SupportFund_text (employment_support_fund fd)) [])
  && privacyAgreed st.

(** *** Events

    What can happen to the mounted page: the effect of
    [ClickSourceHandler], the [onChange] and [onClick] handlers of the
    controls, and the settling of a pending network call.  A control only
    fires while it is rendered and enabled. *)

Inductive HopeOption := HopeNow | Hope3Months | Hope6Months.

Definition HopeOption_text (o : HopeOption) : jsstring :=
  match o with
  | HopeNow => lit "바로 취업"
  | Hope3Months => lit "3개월 준비"
  | Hope6Months => lit "6개월 준비"
  end.

Inductive Event :=
| SearchParamsRead (q : Attribution.SearchParams)
| NameChange (value : jsstring)
| ContactChange (value : jsstring)
| PickPractice
| PickEmployment
| PickPracticeAndEmployment
| PracticeDateChange (value : jsstring)
| HopeTimeChange (o : HopeOption)
| SupportFundChange (hope : bool)
| PrivacyChange (checked : bool)
| PrivacyLinkClick
| PrivacyModalClose
| SubmitClick
| FetchSettled (o : Fetch.outcome).

Section Events.

Variable proto_member : jsstring -> option jsstring.

Definition ClickSourceHandler :=
  Attribution.ClickSourceHandler_with proto_member homepageName.

(** The state after the handler of [ev] has run, or [None] when the
    control is not on screen or is disabled. *)
Definition fire (ev : Event) (st : State) : option State :=
  let fd := formData st in
  let on_step2 (st' : State) :=
    if step st =? 2 then Some st' else None in
  match ev with
  | SearchParamsRead q =>
      Some (setClickSource (ClickSourceHandler q (clickSource st)) st)
  | NameChange value =>
      on_step2 (setFormData (with_name value fd) st)
  | ContactChange value =>
      let formatted := formatContact value in
      on_step2 (setContactError (snd (validateContact formatted))
                  (setFormData (with_contact formatted fd) st))
  | PickPractice =>
      on_step2 (setFormData (with_services true false fd) st)
  | PickEmployment =>
      on_step2 (setFormData
                  (with_practice_planned_date []
                     (with_services false true fd)) st)
  | PickPracticeAndEmployment =>
      on_step2 (setFormData (with_services true true fd) st)
  | PracticeDateChange value =>
      if service_practice fd then
        on_step2 (setFormData
                    (with_practice_planned_date
                       (formatPracticeDate value) fd) st)
      else None
  | HopeTimeChange o =>
      on_step2 (setFormData
                  (with_employment_hope_time (HopeOption_text o) fd) st)
  | SupportFundChange hope =>
      on_step2 (setFormData
                  (with_employment_support_fund
                     (if hope then FundHope else FundNoHope) fd) st)
  | PrivacyChange checked =>
      on_step2 (setPrivacyAgreed checked st)
  | PrivacyLinkClick =>
      on_step2 (setShowPrivacyModal true st)
  | PrivacyModalClose =>
      if showPrivacyModal st then Some (setShowPrivacyModal false st)
      else None
  | SubmitClick =>
      if isFormValid st && negb (loading st)
      then on_step2 (handleSubmit_begin st)
      else None
  | FetchSettled o =>
      if loading st then Some (handleSubmit_settle o st) else None
  end.

Definition dispatch (ev : Event) (st : State) : State :=
  match fire ev st with
  | Some st' => st'
  | None => st
  end.

Fixpoint run (evs : list Event) (st : State) : State :=
  match evs with
  | [] => st
  | ev :: rest => run rest (dispatch ev st)
  end.

(** The states the page can be in. *)
Inductive reachable : State -> Prop :=
| reach_initial : reachable initial
| reach_dispatch ev st : reachable st -> reachable (dispatch ev st).

End Events.

End Part000.

(* ================================================================= *)
(** ** First variant: [src/app/page.tsx] *)

Module Page.

Definition homepageName : jsstring := lit "바로폼".

Definition formatClickSource (proto_member : jsstring -> option jsstring) :=
  Attribution.formatClickSource_with proto_member homepageName.

Definition formatContact := Contact.formatContact.
Definition validateContact := Contact.validateContact.

Definition COURSE_OPTIONS : list jsstring :=
  [ lit "사회복지사"; lit "아동학사"; lit "평생교육사"; lit "편입/대학원";
    lit "건강가정사"; lit "청소년지도사"; lit "보육교사"; lit "심리상담사" ].

(** 상담신청/실습신청서 *)
Inductive FormType := consultation | practice.

Record FormData := {
  name : jsstring;                   (* 성함 *)
  contact : jsstring;                (* 연락처 *)
  type : FormType;
  progress : jsstring;               (* 진행과정 *)
  employment_consulting : bool;      (* 취업컨설팅 *)
  employment_connection : bool;      (* 취업연계 *)
  student_status : jsstring;         (* 학생상태 *)
  practice_place : jsstring;         (* 실습처 배정 *)
  employment_after_cert : jsstring;  (* 자격증 취득 후 취업여부 *)
  education : jsstring;              (* 최종학력 *)
  hope_course : jsstring;            (* 희망과정 *)
  reason : jsstring                  (* 취득사유 *)
}.

(** The object literal [submitData] of [handleSubmit]; a member that a
    conditional spread leaves out is [None]. *)
Record SubmitData := {
  sd_name : jsstring;
  sd_contact : jsstring;
  sd_type : FormType;
  sd_click_source : jsstring;
  sd_employment_after_cert : jsstring;
  sd_progress : option jsstring;
  sd_employment_consulting : option bool;
  sd_employment_connection : option bool;
  sd_student_status : option jsstring;
  sd_practice_place : option jsstring;
  sd_education : jsstring;
  sd_hope_course : jsstring;
  sd_reason : jsstring
}.

(** The state of [StepFlowPage] and [StepFlowContent], followed by what
    the component has done to its environment. *)
Record State := {
  clickSource : jsstring;
  step : nat;
  formTab : FormType;
  formData : FormData;
  loading : bool;
  contactError : jsstring;
  privacyAgreed : bool;
  showPrivacyModal : bool;
  showCourseModal : bool;
  selectedCourses : list jsstring;
  customCourse : jsstring;
  alerts : list jsstring;
  console_errors : list Fetch.thrown;
  requests : list SubmitData
}.

Definition initial : State := {|
  clickSource := homepageName;
  step := 1;
  formTab := consultation;
  formData := {| name := []; contact := []; type := consultation;
                 progress := [];
                 employment_consulting := false;
                 employment_connection := false;
                 student_status := lit "상담대기";
                 practice_place := []; employment_after_cert := [];
                 education := []; hope_course := []; reason := [] |};
  loading := false;
  contactError := [];
  privacyAgreed := false;
  showPrivacyModal := false;
  showCourseModal := false;
  selectedCourses := [];
  customCourse := [];
  alerts := [];
  console_errors := [];
  requests := []
|}.

(** *** State setters *)

Definition setClickSource (v : jsstring) (st : State) : State :=
  {| clickSource := v; step := step st; formTab := formTab st;
     formData := formData st; loading := loading st;
     contactError := contactError st; privacyAgreed := privacyAgreed st;
     showPrivacyModal := showPrivacyModal st;
     showCourseModal := showCourseModal st;
     selectedCourses := selectedCourses st;
     customCourse := customCourse st; alerts := alerts st;
     console_errors := console_errors st; requests := requests st |}.

Definition setStep (v : nat) (st : State) : State :=
  {| clickSource := clickSource st; step := v; formTab := formTab st;
     formData := formData st; loading := loading st;
     contactError := contactError st; privacyAgreed := privacyAgreed st;
     showPrivacyModal := showPrivacyModal st;
     showCourseModal := showCourseModal st;
     selectedCourses := selectedCourses st;
     customCourse := customCourse st; alerts := alerts st;
     console_errors := console_errors st; requests := requests st |}.

Definition setFormData (v : FormData) (st : State) : State :=
  {| clickSource := clickSource st; step := step st;
     formTab := formTab st; formData := v; loading := loading st;
     contactError := contactError st; privacyAgreed := privacyAgreed st;
     showPrivacyModal := showPrivacyModal st;
     showCourseModal := showCourseModal st;
     selectedCourses := selectedCourses st;
     customCourse := customCourse st; alerts := alerts st;
     console_errors := console_errors st; requests := requests st |}.

Definition setLoading (v : bool) (st : State) : State :=
  {| clickSource := clickSource st; step := step st;
     formTab := formTab st; formData := formData st; loading := v;
     contactError := contactError st; privacyAgreed := privacyAgreed st;
     showPrivacyModal := showPrivacyModal st;
     showCourseModal := showCourseModal st;
     selectedCourses := selectedCourses st;
     customCourse := customCourse st; alerts := alerts st;
     console_errors := console_errors st; requests := requests st |}.

Definition setContactError (v : jsstring) (st : State) : State :=
  {| clickSource := clickSource st; step := step st;
     formTab := formTab st; formData := formData st;
     loading := loading st; contactError := v;
     privacyAgreed := privacyAgreed st;
     showPrivacyModal := showPrivacyModal st;
     showCourseModal := showCourseModal st;
     selectedCourses := selectedCourses st;
     customCourse := customCourse st; alerts := alerts st;
     console_errors := console_errors st; requests := requests st |}.

Definition setPrivacyAgreed (v : bool) (st : State) : State :=
  {| clickSource := clickSource st; step := step st;
     formTab := formTab st; formData := formData st;
     loading := loading st; contactError := contactError st;
     privacyAgreed := v; showPrivacyModal := showPrivacyModal st;
     showCourseModal := showCourseModal st;
     selectedCourses := selectedCourses st;
     customCourse := customCourse st; alerts := alerts st;
     console_errors := console_errors st; requests := requests st |}.

Definition setShowPrivacyModal (v : bool) (st : State) : State :=
  {| clickSource := clickSource st; step := step st;
     formTab := formTab st; formData := formData st;
     loading := loading st; contactError := contactError st;
     privacyAgreed := privacyAgreed st; showPrivacyModal := v;
     showCourseModal := showCourseModal st;
     selectedCourses := selectedCourses st;
     customCourse := customCourse st; alerts := alerts st;
     console_errors := console_errors st; requests := requests st |}.

Definition setShowCourseModal (v : bool) (st : State) : State :=
  {| clickSource := clickSource st; step := step st;
     formTab := formTab st; formData := formData st;
     loading := loading st; contactError := contactError st;
     privacyAgreed := privacyAgreed st;
     showPrivacyModal := showPrivacyModal st; showCourseModal := v;
     selectedCourses := selectedCourses st;
     customCourse := customCourse st; alerts := alerts st;
     console_errors := console_errors st; requests := requests st |}.

Definition setSelectedCourses (v : list jsstring) (st : State) : State :=
  {| clickSource := clickSource st; step := step st;
     formTab := formTab st; formData := formData st;
     loading := loading st; contactError := contactError st;
     privacyAgreed := privacyAgreed st;
     showPrivacyModal := showPrivacyModal st;
     showCourseModal := showCourseModal st; selectedCourses := v;
     customCourse := customCourse st; alerts := alerts st;
     console_errors := console_errors st; requests := requests st |}.

Definition setCustomCourse (v : jsstring) (st : State) : State :=
  {| clickSource := clickSource st; step := step st;
     formTab := formTab st; formData := formData st;
     loading := loading st; contactError := contactError st;
     privacyAgreed := privacyAgreed st;
     showPrivacyModal := showPrivacyModal st;
     showCourseModal := showCourseModal st;
     selectedCourses := selectedCourses st; customCourse := v;
     alerts := alerts st; console_errors := console_errors st;
     requests := requests st |}.

(** [alert(msg)] *)
Definition alert (msg : jsstring) (st : State) : State :=
  {| clickSource := clickSource st; step := step st;
     formTab := formTab st; formData := formData st;
     loading := loading st; contactError := contactError st;
     privacyAgreed := privacyAgreed st;
     showPrivacyModal := showPrivacyModal st;
     showCourseModal := showCourseModal st;
     selectedCourses := selectedCourses st;
     customCourse := customCourse st; alerts := alerts st ++ [msg];
     console_errors := console_errors st; requests := requests st |}.

(** [console.error('Error submitting form:', error)] *)
Definition console_error (e : Fetch.thrown) (st : State) : State :=
  {| clickSource := clickSource st; step := step st;
     formTab := formTab st; formData := formData st;
     loading := loading st; contactError := contactError st;
     privacyAgreed := privacyAgreed st;
     showPrivacyModal := showPrivacyModal st;
     showCourseModal := showCourseModal st;
     selectedCourses := selectedCourses st;
     customCourse := customCourse st; alerts := alerts st;
     console_errors := console_errors st ++ [e]; requests := requests st |}.

(** [fetch('/api/consultations', { method: 'POST', body })] is issued. *)
Definition post (d : SubmitData) (st : State) : State :=
  {| clickSource := clickSource st; step := step st;
     formTab := formTab st; formData := formData st;
     loading := loading st; contactError := contactError st;
     privacyAgreed := privacyAgreed st;
     showPrivacyModal := showPrivacyModal st;
     showCourseModal := showCourseModal st;
     selectedCourses := selectedCourses st;
     customCourse := customCourse st; alerts := alerts st;
     console_errors := console_errors st; requests := requests st ++ [d] |}.

(** *** Updates of the form record, [{ ...formData, field: v }] *)

Definition with_name (v : jsstring) (fd : FormData) : FormData :=
  {| name := v; contact := contact fd; type := type fd;
     progress := progress fd;
     employment_consulting := employment_consulting fd;
     employment_connection := employment_connection fd;
     student_status := student_status fd;
     practice_place := practice_place fd;
     employment_after_cert := employment_after_cert fd;
     education := education fd; hope_course := hope_course fd;
     reason := reason fd |}.

Definition with_contact (v : jsstring) (fd : FormData) : FormData :=
  {| name := name fd; contact := v; type := type fd;
     progress := progress fd;
     employment_consulting := employment_consulting fd;
     employment_connection := employment_connection fd;
     student_status := student_status fd;
     practice_place := practice_place fd;
     employment_after_cert := employment_after_cert fd;
     education := education fd; hope_course := hope_course fd;
     reason := reason fd |}.

Definition with_employment_after_cert (v : jsstring) (fd : FormData) : FormData :=
  {| name := name fd; contact := contact fd; type := type fd;
     progress := progress fd;
     employment_consulting := employment_consulting fd;
     employment_connection := employment_connection fd;
     student_status := student_status fd;
     practice_place := practice_place fd; employment_after_cert := v;
     education := education fd; hope_course := hope_course fd;
     reason := reason fd |}.

Definition with_hope_course (v : jsstring) (fd : FormData) : FormData :=
  {| name := name fd; contact := contact fd; type := type fd;
     progress := progress fd;
     employment_consulting := employment_consulting fd;
     employment_connection := employment_connection fd;
     student_status := student_status fd;
     practice_place := practice_place fd;
     employment_after_cert := employment_after_cert fd;
     education := education fd; hope_course := v; reason := reason fd |}.

(** *** The functions of [StepFlowContent] *)

(** [prev.includes(course)] *)
Definition includes (l : list jsstring) (x : jsstring) : bool :=
  existsb (str_eqb x) l.

Definition toggleCourse (course : jsstring) (st : State) : State :=
  let prev := selectedCourses st in
  setSelectedCourses
    (if includes prev course
     then filter (fun c => negb (str_eqb c course)) prev
     else prev ++ [course]) st.

(** [s.trim()] *)
Fixpoint trimStart (s : jsstring) : jsstring :=
  match s with
  | c :: r => if is_space c then trimStart r else s
  | [] => []
  end.
Definition trim (s : jsstring) : jsstring :=
  rev (trimStart (rev (trimStart s))).

(** [all.join(', ')] *)
Fixpoint join (sep : jsstring) (l : list jsstring) : jsstring :=
  match l with
  | [] => []
  | [x] => x
  | x :: rest => x ++ sep ++ join sep rest
  end.

Definition confirmCourseSelection (st : State) : State :=
  let all :=
    if nonempty (trim (customCourse st))
    then selectedCourses st ++ [trim (customCourse st)]
    else selectedCourses st in
  setShowCourseModal false
    (setFormData (with_hope_course (join (lit ", ") all) (formData st)) st).

Definition is_consultation (t : FormType) : bool :=
  match t with consultation => true | practice => false end.
Definition is_practice (t : FormType) : bool :=
  match t with practice => true | consultation => false end.

(** [cond && v] under a spread in the object literal. *)
Definition spread_if {A : Type} (cond : bool) (v : A) : option A :=
  if cond then Some v else None.

Definition submitData (st : State) : SubmitData :=
  let fd := formData st in
  {| sd_name := name fd;
     sd_contact := contact fd;
     sd_type := type fd;
     sd_click_source := clickSource st;
     sd_employment_after_cert := employment_after_cert fd;
     sd_progress := spread_if (is_consultation (type fd)) (progress fd);
     sd_employment_consulting :=
       spread_if (is_consultation (type fd)) (employment_consulting fd);
     sd_employment_connection :=
       spread_if (is_consultation (type fd)) (employment_connection fd);
     sd_student_status :=
       spread_if (is_consultation (type fd)) (student_status fd);
     sd_practice_place :=
       spread_if (is_practice (type fd)) (practice_place fd);
     sd_education := education fd;
     sd_hope_course := hope_course fd;
     sd_reason := reason fd |}.

(** [handleSubmit] up to its [await]. *)
Definition handleSubmit_begin (st : State) : State :=
  post (submitData st) (setLoading true st).

(** [handleSubmit] from the [await] on, once the call has settled as [o]:
    the rest of [try], then [catch], then [finally]. *)
Definition handleSubmit_settle (o : Fetch.outcome) (st : State) : State :=
  let st' :=
    match Fetch.try_result o with
    | None => setStep 3 st
    | Some e => alert (Fetch.alert_text e) (console_error e st)
    end in
  setLoading false st'.

(** A whole run of [handleSubmit] whose network call settles as [o]. *)
Definition handleSubmit (o : Fetch.outcome) (st : State) : State :=
  handleSubmit_settle o (handleSubmit_begin st).

(** 유효성 검사 - 성함, 연락처, 개인정보 동의는 필수 *)
Definition isFormValid (st : State) : bool :=
  let fd := formData st in
  (0 <? length (name fd))
  && Contact.contact_long_enough (contact fd)
  && negb (nonempty (contactError st))
  && privacyAgreed st.

(** 프로그레스 계산 (필수 필드 기준) *)
Definition totalFields : nat := 3.
Definition filledFields (st : State) : nat :=
  let fd := formData st in
  length (filter (fun b : bool => b)
    [ 0 <? length (name fd);
      Contact.contact_long_enough (contact fd)
        && negb (nonempty (contactError st));
      privacyAgreed st ]).

(** *** Events *)

Inductive Event :=
| SearchParamsRead (q : Attribution.SearchParams)
| NextClick
| NameChange (value : jsstring)
| ContactChange (value : jsstring)
| AfterCertChange (yes : bool)
| PrivacyChange (checked : bool)
| PrivacyLinkClick
| PrivacyModalClose
| CourseClick (course : jsstring)
| CustomCourseChange (value : jsstring)
| CourseConfirmClick
| CourseModalClose
| SubmitClick
| FetchSettled (o : Fetch.outcome).

Section Events.

Variable proto_member : jsstring -> option jsstring.

Definition ClickSourceHandler :=
  Attribution.ClickSourceHandler_with proto_member homepageName.

(** The state after the handler of [ev] has run, or [None] when the
    control is not on screen or is disabled. *)
Definition fire (ev : Event) (st : State) : option State :=
  let fd := formData st in
  let on_step2 (st' : State) :=
    if step st =? 2 then Some st' else None in
  let contact_done :=
    Contact.contact_long_enough (contact fd)
    && negb (nonempty (contactError st)) in
  match ev with
  | SearchParamsRead q =>
      Some (setClickSource (ClickSourceHandler q (clickSource st)) st)
  | NextClick =>
      if step st =? 1 then Some (setStep 2 st) else None
  | NameChange value =>
      on_step2 (setFormData (with_name value fd) st)
  | ContactChange value =>
      let formatted := formatContact value in
      if 0 <? length (name fd) then
        on_step2 (setContactError (snd (validateContact formatted))
                    (setFormData (with_contact formatted fd) st))
      else None
  | AfterCertChange yes =>
      if contact_done then
        on_step2 (setFormData
                    (with_employment_after_cert
                       (if yes then lit "O" else lit "X") fd) st)
      else None
  | PrivacyChange checked =>
      if contact_done then on_step2 (setPrivacyAgreed checked st)
      else None
  | PrivacyLinkClick =>
      if contact_done then on_step2 (setShowPrivacyModal true st)
      else None
  | PrivacyModalClose =>
      if showPrivacyModal st then Some (setShowPrivacyModal false st)
      else None
  | CourseClick course =>
      if showCourseModal st && includes COURSE_OPTIONS course
      then Some (toggleCourse course st) else None
  | CustomCourseChange value =>
      if showCourseModal st then Some (setCustomCourse value st)
      else None
  | CourseConfirmClick =>
      if showCourseModal st
         && negb ((length (selectedCourses st) =? 0)
                  && negb (nonempty (trim (customCourse st))))
      then Some (confirmCourseSelection st) else None
  | CourseModalClose =>
      if showCourseModal st then Some (setShowCourseModal false st)
      else None
  | SubmitClick =>
      if isFormValid st && negb (loading st)
      then on_step2 (handleSubmit_begin st)
      else None
  | FetchSettled o =>
      if loading st then Some (handleSubmit_settle o st) else None
  end.

Definition dispatch (ev : Event) (st : State) : State :=
  match fire ev st with
  | Some st' => st'
  | None => st
  end.

Fixpoint run (evs : list Event) (st : State) : State :=
  match evs with
  | [] => st
  | ev :: rest => run rest (dispatch ev st)
  end.

(** The states the page can be in. *)
Inductive reachable : State -> Prop :=
| reach_initial : reachable initial
| reach_dispatch ev st : reachable st -> reachable (dispatch ev st).

End Events.

End Page.

(* ================================================================= *)
(** * Vocabulary of the specification *)

(** ** Attribution label *)

(** One of the two [formatClickSource] functions applied to a source code:
    from [materialId], [blogId], [cafeId] to the label. *)
Definition labeller :=
  option jsstring -> option jsstring -> option jsstring -> jsstring.

(** The campaign constant, an underscore and the rendered source. *)
Definition base_label (campaign rendered : jsstring) : jsstring :=
  campaign ++ Attribution.underscore ++ rendered.

(** The choice of the suffix: nothing when no identifier is present, else
    the blog identifier, else the cafe identifier, else the material
    identifier, after the separators [blog_sep], [cafe_sep], [material_sep]. *)
Definition suffix_by_precedence
    (blog_sep cafe_sep material_sep : jsstring)
    (base : jsstring) (label : labeller) : Prop :=
  (forall m b c,
      truthy b = false -> truthy c = false -> truthy m = false ->
      label m b c = base)
  /\ (forall m (b : jsstring) c,
        b <> [] -> label m (Some b) c = base ++ blog_sep ++ b)
  /\ (forall m b (c : jsstring),
        truthy b = false -> c <> [] ->
        label m b (Some c) = base ++ cafe_sep ++ c)
  /\ (forall (m : jsstring) b c,
        truthy b = false -> truthy c = false -> m <> [] ->
        label (Some m) b c = base ++ material_sep ++ m).

(** The labels of one string [x] given as blog, as cafe and as material
    identifier differ pairwise. *)
Definition kinds_distinguishable (label : labeller) (x : jsstring) : Prop :=
  let as_blog := label None (Some x) None in
  let as_cafe := label None None (Some x) in
  let as_material := label (Some x) None None in
  as_blog <> as_cafe /\ as_blog <> as_material /\ as_cafe <> as_material.

(** ** Contact field *)

(** The display shape in the words of the specification: a separator after
    digit 3 and after digit 7 of a digit string. *)
Definition insert_separators (digits : jsstring) : jsstring :=
  firstn 3 digits
  ++ (if 3 <? length digits
      then Contact.dash ++ firstn 4 (skipn 3 digits) else [])
  ++ (if 7 <? length digits
      then Contact.dash ++ skipn 7 digits else []).

(** The condition under which the specification calls a contact valid. *)
Definition allowed_prefix (contact : jsstring) : Prop :=
  let cleaned := strip_separators contact in
  cleaned = []
  \/ startsWith cleaned (lit "010") = true
  \/ startsWith cleaned (lit "011") = true.

(** A character of the display string: a digit or the separator. *)
Definition is_digit_or_hyphen (c : code_unit) : bool :=
  is_digit c || (c =? hyphen)%N.

(** What the specification asks of a contact formatter [format]: the output
    is the separator-shaped form of the first eleven digits of the input,
    holds nothing but digits and separators, and its digits are those
    eleven. *)
Definition formats_contact (format : jsstring -> jsstring) : Prop :=
  forall value : jsstring,
    let digits := strip_non_digits value in
    format value = insert_separators (firstn 11 digits)
    /\ strip_non_digits (format value) = firstn 11 digits
    /\ forallb is_digit_or_hyphen (format value) = true.

(** ** Required fields *)

(** The local validity conditions of the required fields of the first
    variant: 성함, 연락처, 개인정보 동의. *)
Definition page_name_given (st : Page.State) : Prop :=
  Page.name (Page.formData st) <> [].
Definition page_contact_valid (st : Page.State) : Prop :=
  10 <= length (strip_separators (Page.contact (Page.formData st)))
  /\ Page.contactError st = [].
Definition page_privacy_agreed (st : Page.State) : Prop :=
  Page.privacyAgreed st = true.

(** The local validity conditions of the required fields of the second
    variant; the practice date is required with the practice service. *)
Definition part_name_given (st : Part000.State) : Prop :=
  Part000.name (Part000.formData st) <> [].
Definition part_contact_valid (st : Part000.State) : Prop :=
  10 <= length (strip_separators (Part000.contact (Part000.formData st)))
  /\ Part000.contactError st = [].
Definition part_service_chosen (st : Part000.State) : Prop :=
  Part000.service_practice (Part000.formData st) = true
  \/ Part000.service_employment (Part000.formData st) = true.
Definition part_practice_date_given (st : Part000.State) : Prop :=
  Part000.service_practice (Part000.formData st) = true ->
  length (Part000.practice_planned_date (Part000.formData st)) = 7.
Definition part_hope_time_given (st : Part000.State) : Prop :=
  Part000.employment_hope_time (Part000.formData st) <> [].
Definition part_support_fund_chosen (st : Part000.State) : Prop :=
  Part000.employment_support_fund (Part000.formData st)
  <> Part000.FundUnset.
Definition part_privacy_agreed (st : Part000.State) : Prop :=
  Part000.privacyAgreed st = true.

(** ** Submission *)

(** The error message a failure response provides, when it provides one. *)
Definition server_message (o : Fetch.outcome) : option jsstring :=
  match o with
  | Fetch.Resolves false (Fetch.BodyJson (Some (c :: r))) => Some (c :: r)
  | _ => None
  end.

(** The two fixed fallback texts of [handleSubmit]. *)
Definition is_generic_fallback (msg : jsstring) : Prop :=
  msg = Fetch.save_failed \/ msg = Fetch.save_failed_retry.

(** One alert was shown, with the server-provided message when there is one
    and a generic fallback otherwise. *)
Definition alert_as_claimed (o : Fetch.outcome)
    (before after : list jsstring) : Prop :=
  exists msg,
    after = before ++ [msg]
    /\ match server_message o with
       | Some m => msg = m
       | None => is_generic_fallback msg
       end.

(** The text of the alert that follows a submission settling as [o], if
    any: nothing on success; the server message or the first fallback for a
    failure response whose body is read; the message of what was thrown, or
    the second fallback when that is not an Error, otherwise. *)
Definition expected_alert (o : Fetch.outcome) : list jsstring :=
  match o with
  | Fetch.Resolves true _ => []
  | Fetch.Resolves false (Fetch.BodyJson (Some (c :: r))) => [c :: r]
  | Fetch.Resolves false (Fetch.BodyJson _) => [Fetch.save_failed]
  | Fetch.Resolves false (Fetch.BodyRejects (Fetch.ErrorInstance m))
  | Fetch.Rejects (Fetch.ErrorInstance m) => [m]
  | Fetch.Resolves false (Fetch.BodyRejects Fetch.NotAnError)
  | Fetch.Rejects Fetch.NotAnError => [Fetch.save_failed_retry]
  end.

(** The step a submission from step 2 ends on. *)
Definition expected_step (o : Fetch.outcome) : nat :=
  match o with
  | Fetch.Resolves true _ => 3
  | _ => 2
  end.

(** [date] with every separator taken out. *)
Definition strip_hyphens (date : jsstring) : jsstring :=
  filter (fun c => negb (c =? hyphen)%N) date.

(** ** Scenarios *)

(** A visitor of the second variant fills in every field. *)
Definition part_fill_in : list Part000.Event :=
  [ Part000.NameChange (lit "홍길동");
    Part000.ContactChange (lit "01012345678");
    Part000.PickPractice;
    Part000.PracticeDateChange (lit "202503");
    Part000.HopeTimeChange Part000.Hope3Months;
    Part000.SupportFundChange true;
    Part000.PrivacyChange true ].

Definition part_filled : Part000.State :=
  Part000.run (fun _ => None) part_fill_in Part000.initial.

(** A visitor of the first variant presses next and fills in the required
    fields. *)
Definition page_fill_in : list Page.Event :=
  [ Page.NextClick;
    Page.NameChange (lit "홍길동");
    Page.ContactChange (lit "01012345678");
    Page.AfterCertChange true;
    Page.PrivacyChange true ].

Definition page_filled : Page.State :=
  Page.run (fun _ => None) page_fill_in Page.initial.

(** The network is down: [fetch] rejects with a TypeError. *)
Definition network_failure : Fetch.outcome :=
  Fetch.Rejects (Fetch.ErrorInstance (lit "Failed to fetch")).

(** ** Invariants of the pages *)

(** Second variant: the step is 2 or 3, a call is pending on step 2 only,
    the stored practice date came out of [formatPracticeDate], and the
    error message is the one [validateContact] gives for the stored
    contact. *)
Definition part_invariant (st : Part000.State) : Prop :=
  (Part000.step st = 2 \/ Part000.step st = 3)
  /\ (Part000.loading st = true -> Part000.step st = 2)
  /\ (exists value,
        Part000.practice_planned_date (Part000.formData st)
        = Part000.formatPracticeDate value)
  /\ Part000.contactError st
     = snd (Part000.validateContact (Part000.contact (Part000.formData st))).

(** First variant: the step is 1, 2 or 3, a call is pending on step 2
    only, and the error message is the one [validateContact] gives for the
    stored contact. *)
Definition page_invariant (st : Page.State) : Prop :=
  (Page.step st = 1 \/ Page.step st = 2 \/ Page.step st = 3)
  /\ (Page.loading st = true -> Page.step st = 2)
  /\ Page.contactError st
     = snd (Page.validateContact (Page.contact (Page.formData st))).

(** ** Further parts of the pages *)

(** The [checked] attributes of the three service checkboxes of the second
    variant: 실습, 취업, 실습 + 취업. *)
Definition practice_only_checked (fd : Part000.FormData) : bool :=
  Part000.service_practice fd && negb (Part000.service_employment fd).
Definition employment_only_checked (fd : Part000.FormData) : bool :=
  Part000.service_employment fd && negb (Part000.service_practice fd).
Definition practice_and_employment_checked (fd : Part000.FormData) : bool :=
  Part000.service_practice fd && Part000.service_employment fd.

(** [s] neither begins nor ends with white space. *)
Definition no_outer_space (s : jsstring) : Prop :=
  match s with
  | c :: _ => is_space c = false
  | [] => True
  end
  /\ match rev s with
     | c :: _ => is_space c = false
     | [] => True
     end.

(** A displayed mobile number: ten or eleven digits beginning with "010"
    or "011", with the separators of the display shape. *)
Definition mobile_contact (contact : jsstring) : Prop :=
  exists digits : jsstring,
    forallb is_digit digits = true
    /\ 10 <= length digits <= 11
    /\ (startsWith digits (lit "010") = true
        \/ startsWith digits (lit "011") = true)
    /\ contact = insert_separators digits.

(** The state of the first variant that no control on screen changes, and
    what the radio buttons can store. *)
Definition page_fixed_fields (st : Page.State) : Prop :=
  let fd := Page.formData st in
  Page.showCourseModal st = false
  /\ Page.selectedCourses st = []
  /\ Page.customCourse st = []
  /\ Page.formTab st = Page.consultation
  /\ Page.type fd = Page.consultation
  /\ Page.progress fd = []
  /\ Page.employment_consulting fd = false
  /\ Page.employment_connection fd = false
  /\ Page.student_status fd = lit "상담대기"
  /\ Page.practice_place fd = []
  /\ Page.education fd = []
  /\ Page.hope_course fd = []
  /\ Page.reason fd = []
  /\ (Page.employment_after_cert fd = []
      \/ Page.employment_after_cert fd = lit "O"
      \/ Page.employment_after_cert fd = lit "X").

(** Every request sent is pending, was answered by an alert, or is the one
    that succeeded; each alert has its [console.error] entry. *)
Definition page_accounted (st : Page.State) : Prop :=
  length (Page.requests st)
  = length (Page.alerts st)
    + (if Page.loading st then 1 else 0)
    + (if Page.step st =? 3 then 1 else 0)
  /\ length (Page.console_errors st) = length (Page.alerts st).

Definition part_accounted (st : Part000.State) : Prop :=
  length (Part000.requests st)
  = length (Part000.alerts st)
    + (if Part000.loading st then 1 else 0)
    + (if Part000.step st =? 3 then 1 else 0)
  /\ length (Part000.console_errors st) = length (Part000.alerts st).

(** A payload of the first variant with its required members filled in. *)
Definition page_payload_ok (d : Page.SubmitData) : Prop :=
  Page.sd_name d <> []
  /\ mobile_contact (Page.sd_contact d)
  /\ startsWith (Page.sd_click_source d) Page.homepageName = true.

(** A payload of the second variant with its required members filled in:
    the practice date is six digits with the practice service and null
    without it. *)
Definition part_payload_ok (d : Part000.SubmitData) : Prop :=
  Part000.sd_name d <> []
  /\ mobile_contact (Part000.sd_contact d)
  /\ (Part000.sd_service_practice d = true
      \/ Part000.sd_service_employment d = true)
  /\ (if Part000.sd_service_practice d
      then exists digits,
             Part000.sd_practice_planned_date d = Some digits
             /\ forallb is_digit digits = true /\ length digits = 6
      else Part000.sd_practice_planned_date d = None)
  /\ (exists o,
        Part000.sd_employment_hope_time d = Part000.HopeOption_text o)
  /\ Part000.sd_privacy_agreed d = true
  /\ startsWith (Part000.sd_click_source d) Part000.homepageName = true.

(** What the pages keep about the contact, the label and the requests. *)
Definition page_sent_invariant (st : Page.State) : Prop :=
  (exists value,
      Page.contact (Page.formData st) = Page.formatContact value)
  /\ startsWith (Page.clickSource st) Page.homepageName = true
  /\ Forall page_payload_ok (Page.requests st).

Definition part_sent_invariant (st : Part000.State) : Prop :=
  (exists value,
      Part000.contact (Part000.formData st) = Part000.formatContact value)
  /\ startsWith (Part000.clickSource st) Part000.homepageName = true
  /\ (Part000.employment_hope_time (Part000.formData st) = []
      \/ exists o,
           Part000.employment_hope_time (Part000.formData st)
           = Part000.HopeOption_text o)
  /\ Forall part_payload_ok (Part000.requests st).

(** The members of a payload of the first variant that are the same in
    every request, and what the radio member can be. *)
Definition page_payload_fixed (d : Page.SubmitData) : Prop :=
  Page.sd_type d = Page.consultation
  /\ Page.sd_progress d = Some []
  /\ Page.sd_employment_consulting d = Some false
  /\ Page.sd_employment_connection d = Some false
  /\ Page.sd_student_status d = Some (lit "상담대기")
  /\ Page.sd_practice_place d = None
  /\ Page.sd_education d = []
  /\ Page.sd_hope_course d = []
  /\ Page.sd_reason d = []
  /\ (Page.sd_employment_after_cert d = []
      \/ Page.sd_employment_after_cert d = lit "O"
      \/ Page.sd_employment_after_cert d = lit "X").

(* ================================================================= *)
(** * Properties *)

(** ** Attribution label *)

Section AttributionFacts.

Import Attribution.

Variable proto_member : jsstring -> option jsstring.

Lemma truthy_Some_nonempty {s : jsstring} :
  s <> [] -> truthy (Some s) = true.
Proof. destruct s; [congruence | reflexivity]. Qed.

(** A supported code is rendered by its display name, whatever
    Object.prototype holds. *)
Lemma shortSource_supported (code display : jsstring) :
  In (code, display) sourceMap -> shortSource proto_member code = display.
Proof.
  unfold sourceMap; intros H.
  repeat (destruct H as [H | H];
          [injection H as <- <-; vm_compute; reflexivity |]).
  destruct H.
Qed.

(** Both pages pick the suffix by precedence, with the plain underscore for
    a blog and for a cafe identifier and the material token for a material
    identifier. *)
Lemma formatClickSource_with_precedence (homepageName code : jsstring) :
  suffix_by_precedence underscore underscore material_token
    (base_label homepageName (shortSource proto_member code))
    (formatClickSource_with proto_member homepageName code).
Proof.
  unfold suffix_by_precedence, formatClickSource_with, base_label.
  repeat split.
  - intros m b c -> -> ->; reflexivity.
  - intros m b c Hb.
    rewrite (truthy_Some_nonempty Hb); simpl render.
    now rewrite <- !app_assoc.
  - intros m b c Hb Hc.
    rewrite Hb, (truthy_Some_nonempty Hc); simpl render.
    now rewrite <- !app_assoc.
  - intros m b c Hb Hc Hm.
    rewrite Hb, Hc, (truthy_Some_nonempty Hm); simpl render.
    now rewrite <- !app_assoc.
Qed.

(** The material token is longer than the plain separator, so the two
    suffixes of one identifier never agree. *)
Lemma material_suffix_differs (pre x : jsstring) :
  pre ++ material_token ++ x <> pre ++ underscore ++ x.
Proof.
  intros H; apply app_inv_head in H.
  apply (f_equal (@length _)) in H.
  rewrite !length_app in H; vm_compute in H; lia.
Qed.

End AttributionFacts.

(** C1.  For every supported source code (a key of the lookup table, with
    its display name), on both pages: [formatClickSource] returns the
    campaign constant, an underscore and the display name when [blogId],
    [cafeId] and [materialId] are all absent, and otherwise appends the
    suffix of exactly one identifier, the blog one before the cafe one
    before the material one. *)
Theorem formatClickSource_supported_precedence :
  forall (proto_member : jsstring -> option jsstring)
         (code display : jsstring),
    In (code, display) Attribution.sourceMap ->
    suffix_by_precedence
      Attribution.underscore Attribution.underscore
      Attribution.material_token
      (base_label Page.homepageName display)
      (Page.formatClickSource proto_member code)
    /\
    suffix_by_precedence
      Attribution.underscore Attribution.underscore
      Attribution.material_token
      (base_label Part000.homepageName display)
      (Part000.formatClickSource proto_member code).
Proof.
  intros pm code display Hin.
  rewrite <- (shortSource_supported pm code display Hin).
  split; apply formatClickSource_with_precedence.
Qed.

Lemma formatClickSource_supported_precedence_witness :
  In (lit "kakao", lit "카카오") Attribution.sourceMap
  /\ Page.formatClickSource (fun _ => None) (lit "kakao")
       (Some (lit "42")) None None
     = lit "바로폼_카카오_소재_42"
  /\ Part000.formatClickSource (fun _ => None) (lit "kakao")
       (Some (lit "42")) (Some (lit "b7")) (Some (lit "c9"))
     = lit "취업상담신청_카카오_b7".
Proof.
  assert (Hin : In (lit "kakao", lit "카카오") Attribution.sourceMap)
    by (vm_compute; tauto).
  destruct (formatClickSource_supported_precedence (fun _ => None)
              (lit "kakao") (lit "카카오") Hin)
    as [(_ & _ & _ & Hmat) (_ & Hblog & _ & _)].
  split; [exact Hin |]. split.
  - rewrite (Hmat (lit "42") None None eq_refl eq_refl); [reflexivity |].
    vm_compute; discriminate.
  - rewrite (Hblog (Some (lit "42")) (lit "b7") (Some (lit "c9")));
      [reflexivity |]. vm_compute; discriminate.
Defined.

(** C2, as stated, fails: a blog identifier and a cafe identifier are
    appended after the same separator, so for source "kakao" the string "42"
    gives one and the same label as blog and as cafe identifier. *)
Lemma formatClickSource_blog_cafe_same_label :
  ~ kinds_distinguishable
      (Page.formatClickSource (fun _ => None) (lit "kakao")) (lit "42").
Proof.
  intros [Hblog_cafe _]. apply Hblog_cafe. vm_compute. reflexivity.
Qed.

(** C2, amended.  For every source code and every choice of identifiers, on
    both pages, [formatClickSource] appends the first present identifier
    among blog, cafe, material in that order; a blog and a cafe identifier
    both follow the plain underscore and a material identifier follows the
    material token.  Hence the material label of a string differs from its
    blog and cafe labels, while its blog and cafe labels are equal. *)
Theorem formatClickSource_first_present_identifier :
  forall (proto_member : jsstring -> option jsstring) (code : jsstring),
    let rendered := Attribution.shortSource proto_member code in
    let page := Page.formatClickSource proto_member code in
    let part := Part000.formatClickSource proto_member code in
    suffix_by_precedence
      Attribution.underscore Attribution.underscore
      Attribution.material_token
      (base_label Page.homepageName rendered) page
    /\
    suffix_by_precedence
      Attribution.underscore Attribution.underscore
      Attribution.material_token
      (base_label Part000.homepageName rendered) part
    /\
    (forall x : jsstring, x <> [] ->
       page None (Some x) None = page None None (Some x)
       /\ page (Some x) None None <> page None (Some x) None
       /\ part None (Some x) None = part None None (Some x)
       /\ part (Some x) None None <> part None (Some x) None).
Proof.
  intros pm code rendered page part.
  pose proof (formatClickSource_with_precedence pm Page.homepageName code)
    as Hpage.
  pose proof (formatClickSource_with_precedence pm Part000.homepageName code)
    as Hpart.
  split; [exact Hpage |]. split; [exact Hpart |].
  intros x Hx.
  destruct Hpage as (_ & Pb & Pc & Pm), Hpart as (_ & Qb & Qc & Qm).
  subst page part; unfold Page.formatClickSource, Part000.formatClickSource.
  rewrite (Pb None x None Hx), (Pc None None x eq_refl Hx),
          (Pm x None None eq_refl eq_refl Hx),
          (Qb None x None Hx), (Qc None None x eq_refl Hx),
          (Qm x None None eq_refl eq_refl Hx).
  repeat split; try reflexivity; apply material_suffix_differs.
Qed.

Lemma formatClickSource_first_present_identifier_witness :
  lit "42" <> []
  /\ Part000.formatClickSource (fun _ => None) (lit "mail")
       None (Some (lit "42")) None
     = Part000.formatClickSource (fun _ => None) (lit "mail")
       None None (Some (lit "42"))
  /\ Part000.formatClickSource (fun _ => None) (lit "mail")
       (Some (lit "42")) None None
     <> Part000.formatClickSource (fun _ => None) (lit "mail")
       None (Some (lit "42")) None.
Proof.
  assert (Hx : lit "42" <> []) by (vm_compute; discriminate).
  destruct (formatClickSource_first_present_identifier
              (fun _ => None) (lit "mail")) as (_ & _ & H).
  destruct (H (lit "42") Hx) as (_ & _ & Heq & Hneq).
  split; [exact Hx |]. split; [exact Heq | exact Hneq].
Defined.

(** ** Contact field *)

Section ContactFacts.

Import Contact.

Lemma forallb_firstn {A} (f : A -> bool) n l :
  forallb f l = true -> forallb f (firstn n l) = true.
Proof.
  revert l; induction n as [| n IH]; intros [| a l]; simpl; auto.
  intros H; apply andb_true_iff in H as [-> H]; simpl; auto.
Qed.

Lemma forallb_skipn {A} (f : A -> bool) n l :
  forallb f l = true -> forallb f (skipn n l) = true.
Proof.
  revert l; induction n as [| n IH]; intros [| a l]; simpl; auto.
  intros H; apply andb_true_iff in H as [_ H]; auto.
Qed.

Lemma strip_non_digits_digits (d : jsstring) :
  forallb is_digit d = true -> strip_non_digits d = d.
Proof. apply forallb_filter_id. Qed.

Lemma strip_non_digits_all_digits (s : jsstring) :
  forallb is_digit (strip_non_digits s) = true.
Proof. apply forallb_filter. Qed.

(** The three groups of a digit string put it back together. *)
Lemma groups_rejoin (d : jsstring) :
  firstn 3 d ++ firstn 4 (skipn 3 d) ++ skipn 7 d = d.
Proof.
  change 7 with (4 + 3); rewrite <- skipn_skipn.
  now rewrite firstn_skipn, firstn_skipn.
Qed.

(** Taking the separators out of the display shape gives the digits
    back. *)
Lemma strip_insert_separators (d : jsstring) :
  forallb is_digit d = true ->
  strip_non_digits (insert_separators d) = d.
Proof.
  intros Hd; unfold insert_separators, strip_non_digits.
  assert (H3 : filter is_digit (firstn 3 d) = firstn 3 d)
    by (apply forallb_filter_id, forallb_firstn, Hd).
  assert (H4 : filter is_digit (firstn 4 (skipn 3 d))
               = firstn 4 (skipn 3 d))
    by (apply forallb_filter_id, forallb_firstn, forallb_skipn, Hd).
  assert (H7 : filter is_digit (skipn 7 d) = skipn 7 d)
    by (apply forallb_filter_id, forallb_skipn, Hd).
  destruct (Nat.ltb_spec 3 (length d)) as [L3 | L3];
    destruct (Nat.ltb_spec 7 (length d)) as [L7 | L7];
    rewrite ?filter_app, ?H3, ?H4, ?H7; simpl filter;
    rewrite ?app_nil_r.
  - apply groups_rejoin.
  - rewrite <- (groups_rejoin d) at 3.
    rewrite (@skipn_all2 _ 7 d) by lia. now rewrite app_nil_r.
  - lia.
  - apply firstn_all2; lia.
Qed.

(** [formatContact] is the display shape of the first eleven digits of
    its input. *)
Lemma formatContact_shape (value : jsstring) :
  formatContact value
  = insert_separators (firstn 11 (strip_non_digits value)).
Proof.
  unfold formatContact, insert_separators, slice, slice_from.
  set (d := strip_non_digits value).
  rewrite length_firstn, !firstn_firstn, !skipn_firstn_comm,
          firstn_firstn.
  remember (Nat.min 11 (length d)) as m eqn:Hm.
  change (skipn 0 d) with d.
  change (3 - 0) with 3; change (7 - 3) with 4; change (11 - 7) with 4.
  change (Nat.min 3 11) with 3; change (Nat.min 4 (11 - 3)) with 4.
  destruct (Nat.leb_spec (length d) 3) as [L3 | L3].
  - destruct (Nat.ltb_spec 3 m); [lia |].
    destruct (Nat.ltb_spec 7 m); [lia |].
    rewrite !app_nil_r. symmetry; apply firstn_all2; lia.
  - destruct (Nat.ltb_spec 3 m); [| lia].
    destruct (Nat.leb_spec (length d) 7) as [L7 | L7].
    + destruct (Nat.ltb_spec 7 m); [lia |].
      rewrite app_nil_r. do 2 f_equal.
      symmetry; apply firstn_all2. rewrite length_skipn; lia.
    + destruct (Nat.ltb_spec 7 m); [| lia].
      now rewrite <- !app_assoc.
Qed.

End ContactFacts.

(** C4.  [formatContact] is idempotent: formatting a formatted value
    returns it unchanged, for every input string, on both pages. *)
Theorem formatContact_idempotent :
  forall value : jsstring,
    Page.formatContact (Page.formatContact value) = Page.formatContact value
    /\ Part000.formatContact (Part000.formatContact value)
       = Part000.formatContact value.
Proof.
  intros value; unfold Page.formatContact, Part000.formatContact.
  assert (H : Contact.formatContact (Contact.formatContact value)
              = Contact.formatContact value).
  { rewrite (formatContact_shape value).
    set (d := firstn 11 (strip_non_digits value)).
    rewrite formatContact_shape, strip_insert_separators.
    - f_equal. apply firstn_all2. subst d. apply firstn_le_length.
    - subst d. apply forallb_firstn, strip_non_digits_all_digits. }
  split; exact H.
Qed.

Section ContactDisplay.

Lemma forallb_digits_display (d : jsstring) :
  forallb is_digit d = true -> forallb is_digit_or_hyphen d = true.
Proof.
  induction d as [| c d IH]; simpl; [reflexivity |].
  intros H; apply andb_true_iff in H as [Hc Hd].
  unfold is_digit_or_hyphen at 1; rewrite Hc; simpl; auto.
Qed.

Lemma insert_separators_display (d : jsstring) :
  forallb is_digit d = true ->
  forallb is_digit_or_hyphen (insert_separators d) = true.
Proof.
  intros Hd; unfold insert_separators.
  pose proof (forallb_digits_display _ (forallb_firstn _ 3 _ Hd)) as H3.
  pose proof (forallb_digits_display _
                (forallb_firstn _ 4 _ (forallb_skipn _ 3 _ Hd))) as H4.
  pose proof (forallb_digits_display _ (forallb_skipn _ 7 _ Hd)) as H7.
  destruct (3 <? length d), (7 <? length d);
    rewrite !forallb_app, ?H3, ?H4, ?H7; reflexivity.
Qed.

Lemma formatContact_formats : formats_contact Contact.formatContact.
Proof.
  intros value digits.
  assert (Hd : forallb is_digit (firstn 11 digits) = true)
    by (apply forallb_firstn, strip_non_digits_all_digits).
  rewrite formatContact_shape; fold digits.
  split; [reflexivity |]. split.
  - now apply strip_insert_separators.
  - now apply insert_separators_display.
Qed.

End ContactDisplay.

(** C5.  For every input string, on both pages, [formatContact] strips all
    non-digit characters and puts a separator after digit 3 and after digit
    7 of what is left, keeping the first eleven digits and dropping the
    rest; the input "01012345678" is displayed as "010-1234-5678". *)
Theorem formatContact_groups_eleven_digits :
  formats_contact Page.formatContact
  /\ formats_contact Part000.formatContact
  /\ Page.formatContact (lit "01012345678") = lit "010-1234-5678"
  /\ Part000.formatContact (lit "01012345678") = lit "010-1234-5678"
  /\ Page.formatContact (lit "+82 (010) 1234-5678-999")
     = lit "820-1012-3456".
Proof.
  repeat split; try apply formatContact_formats; vm_compute; reflexivity.
Qed.

Section ContactValidation.

Import Contact.

Lemma prefix_error_nonempty : prefix_error <> [].
Proof. vm_compute; discriminate. Qed.

Lemma validateContact_cases (contact : jsstring) :
  (allowed_prefix contact /\ validateContact contact = (true, []))
  \/ (~ allowed_prefix contact
      /\ validateContact contact = (false, prefix_error)).
Proof.
  unfold allowed_prefix, validateContact.
  destruct (strip_separators contact) as [| c cleaned] eqn:E.
  - left; simpl; auto.
  - change (length (c :: cleaned) =? 0) with false; cbv iota.
    destruct (startsWith (c :: cleaned) (lit "010")) eqn:E0;
      destruct (startsWith (c :: cleaned) (lit "011")) eqn:E1;
      simpl andb; cbv iota; auto.
    right; split; [| reflexivity].
    intros [H | [H | H]]; discriminate.
Qed.

End ContactValidation.

(** C6.  For every contact string, on both pages, [validateContact] returns
    true and clears the error message exactly when the separator-stripped
    form is empty or begins with "010" or "011"; in every other case it
    returns false and sets the fixed prefix-error message.  The input
    "02112345678" is invalid with that message. *)
Theorem validateContact_prefix_rule :
  forall contact : jsstring,
    Page.validateContact contact = Part000.validateContact contact
    /\ (allowed_prefix contact
        <-> Page.validateContact contact = (true, []))
    /\ (~ allowed_prefix contact
        <-> Page.validateContact contact = (false, Contact.prefix_error))
    /\ Contact.prefix_error <> []
    /\ Page.validateContact (lit "02112345678")
       = (false, Contact.prefix_error)
    /\ Part000.validateContact (lit "02112345678")
       = (false, Contact.prefix_error).
Proof.
  intros contact; unfold Page.validateContact, Part000.validateContact.
  split; [reflexivity |].
  destruct (validateContact_cases contact) as [[Hok ->] | [Hbad ->]].
  - repeat split; auto using prefix_error_nonempty;
      try discriminate; tauto.
  - repeat split; auto using prefix_error_nonempty;
      try discriminate; tauto.
Qed.

Lemma validateContact_prefix_rule_witness :
  allowed_prefix (lit "010-1234-5678")
  /\ Part000.validateContact (lit "010-1234-5678") = (true, []).
Proof.
  assert (H : allowed_prefix (lit "010-1234-5678"))
    by (right; left; vm_compute; reflexivity).
  split; [exact H |].
  destruct (validateContact_prefix_rule (lit "010-1234-5678"))
    as (Hsame & Hiff & _).
  rewrite <- Hsame. apply Hiff, H.
Defined.

(** ** Required fields *)

Section Validity.

Lemma length_pos_iff (s : jsstring) : (0 <? length s) = true <-> s <> [].
Proof.
  destruct s; simpl; split; try congruence; try discriminate; auto.
Qed.

Lemma nonempty_false_iff (s : jsstring) :
  negb (nonempty s) = true <-> s = [].
Proof. destruct s; simpl; split; congruence. Qed.

Lemma contact_long_enough_iff (c : jsstring) :
  Contact.contact_long_enough c = true
  <-> 10 <= length (strip_separators c).
Proof. unfold Contact.contact_long_enough. apply Nat.leb_le. Qed.

Lemma page_isFormValid_iff (st : Page.State) :
  Page.isFormValid st = true
  <-> page_name_given st /\ page_contact_valid st
      /\ page_privacy_agreed st.
Proof.
  unfold Page.isFormValid, page_name_given, page_contact_valid,
    page_privacy_agreed.
  rewrite !andb_true_iff, length_pos_iff, contact_long_enough_iff,
    nonempty_false_iff.
  tauto.
Qed.

Lemma fund_chosen_iff (f : Part000.SupportFund) :
  negb (str_eqb (Part000.SupportFund_text f) []) = true
  <-> f <> Part000.FundUnset.
Proof. destruct f; vm_compute; split; congruence. Qed.

Lemma part_isFormValid_iff (st : Part000.State) :
  Part000.isFormValid st = true
  <-> part_name_given st /\ part_contact_valid st
      /\ part_service_chosen st /\ part_practice_date_given st
      /\ part_hope_time_given st /\ part_support_fund_chosen st
      /\ part_privacy_agreed st.
Proof.
  unfold Part000.isFormValid, part_name_given, part_contact_valid,
    part_service_chosen, part_practice_date_given, part_hope_time_given,
    part_support_fund_chosen, part_privacy_agreed.
  rewrite !andb_true_iff, !orb_true_iff, !length_pos_iff,
    contact_long_enough_iff, nonempty_false_iff, fund_chosen_iff,
    negb_true_iff, Nat.eqb_eq.
  destruct (Part000.service_practice (Part000.formData st));
    intuition congruence.
Qed.

End Validity.

(** C3.  On each page [isFormValid] is true exactly when all required
    fields of that page are valid together, and it is false as soon as one
    of them is empty or invalid, whatever the others are. *)
Theorem isFormValid_all_required_fields :
  (forall st : Page.State,
      (Page.isFormValid st = true
       <-> page_name_given st /\ page_contact_valid st
           /\ page_privacy_agreed st)
      /\ (~ page_name_given st -> Page.isFormValid st = false)
      /\ (~ page_contact_valid st -> Page.isFormValid st = false)
      /\ (~ page_privacy_agreed st -> Page.isFormValid st = false))
  /\
  (forall st : Part000.State,
      (Part000.isFormValid st = true
       <-> part_name_given st /\ part_contact_valid st
           /\ part_service_chosen st /\ part_practice_date_given st
           /\ part_hope_time_given st /\ part_support_fund_chosen st
           /\ part_privacy_agreed st)
      /\ (~ part_name_given st -> Part000.isFormValid st = false)
      /\ (~ part_contact_valid st -> Part000.isFormValid st = false)
      /\ (~ part_service_chosen st -> Part000.isFormValid st = false)
      /\ (~ part_practice_date_given st -> Part000.isFormValid st = false)
      /\ (~ part_hope_time_given st -> Part000.isFormValid st = false)
      /\ (~ part_support_fund_chosen st -> Part000.isFormValid st = false)
      /\ (~ part_privacy_agreed st -> Part000.isFormValid st = false)).
Proof.
  split; intros st.
  - pose proof (page_isFormValid_iff st) as H.
    split; [exact H |].
    repeat split; intros Hn; apply not_true_is_false; tauto.
  - pose proof (part_isFormValid_iff st) as H.
    split; [exact H |].
    repeat split; intros Hn; apply not_true_is_false; tauto.
Qed.

Lemma isFormValid_all_required_fields_witness :
  Page.isFormValid page_filled = true
  /\ Part000.isFormValid part_filled = true
  /\ ~ part_privacy_agreed Part000.initial
  /\ Part000.isFormValid Part000.initial = false.
Proof.
  destruct isFormValid_all_required_fields as [Hpage Hpart].
  split; [| split; [| split]].
  - apply (proj1 (Hpage page_filled)).
    repeat split; vm_compute; try discriminate; try reflexivity; lia.
  - apply (proj1 (Hpart part_filled)).
    repeat split; vm_compute; try discriminate; try reflexivity;
      try lia; auto.
  - vm_compute; discriminate.
  - apply (Hpart Part000.initial). vm_compute; discriminate.
Defined.

(** ** The step marker and the submission *)

Section PartMachine.

Import Part000.

Variable proto_member : jsstring -> option jsstring.

Lemma part_invariant_initial : part_invariant initial.
Proof.
  repeat split; simpl; auto; try discriminate.
  exists []; reflexivity.
Qed.

Lemma part_invariant_settle o st :
  part_invariant st -> part_invariant (handleSubmit_settle o st).
Proof.
  intros (Hs & Hl & Hd & Hc); unfold handleSubmit_settle.
  destruct (Fetch.try_result o); repeat split; simpl; auto;
    discriminate.
Qed.

Lemma part_invariant_dispatch ev st :
  part_invariant st -> part_invariant (dispatch proto_member ev st).
Proof.
  intros Hinv. pose proof Hinv as (Hs & Hl & Hd & Hc).
  unfold dispatch, fire.
  destruct ev;
    try (destruct (loading st);
         [now apply part_invariant_settle | exact Hinv]);
    repeat match goal with
           | |- context [if ?b then _ else _] => destruct b eqn:?
           end;
    try exact Hinv;
    repeat split; simpl; auto; try discriminate;
    try (intros _; now apply Nat.eqb_eq).
  - exists []; reflexivity.
  - exists value; reflexivity.
Qed.

Lemma part_reachable_invariant st :
  reachable proto_member st -> part_invariant st.
Proof.
  induction 1; auto using part_invariant_initial, part_invariant_dispatch.
Qed.

Lemma part_reachable_run evs st :
  reachable proto_member st -> reachable proto_member (run proto_member evs st).
Proof.
  revert st; induction evs as [| ev evs IH]; intros st H; simpl; auto.
  apply IH. now constructor.
Qed.

End PartMachine.

Section PageMachine.

Import Page.

Variable proto_member : jsstring -> option jsstring.

Lemma page_invariant_initial : page_invariant initial.
Proof. repeat split; simpl; auto; discriminate. Qed.

Lemma page_invariant_settle o st :
  page_invariant st -> loading st = true ->
  page_invariant (handleSubmit_settle o st).
Proof.
  intros (Hs & Hl & Hc) Hload; unfold handleSubmit_settle.
  destruct (Fetch.try_result o); repeat split; simpl; auto;
    discriminate.
Qed.

Lemma page_invariant_dispatch ev st :
  page_invariant st -> page_invariant (dispatch proto_member ev st).
Proof.
  intros Hinv. pose proof Hinv as (Hs & Hl & Hc).
  unfold dispatch, fire.
  destruct ev;
    try (destruct (loading st) eqn:Hload;
         [now apply page_invariant_settle | exact Hinv]);
    repeat match goal with
           | |- context [if ?b then _ else _] => destruct b eqn:?
           end;
    try exact Hinv;
    repeat split; simpl; auto; try discriminate;
    try (intros _; now apply Nat.eqb_eq).
Qed.

Lemma page_reachable_invariant st :
  reachable proto_member st -> page_invariant st.
Proof.
  induction 1; auto using page_invariant_initial, page_invariant_dispatch.
Qed.

Lemma page_reachable_run evs st :
  reachable proto_member st ->
  reachable proto_member (run proto_member evs st).
Proof.
  revert st; induction evs as [| ev evs IH]; intros st H; simpl; auto.
  apply IH. now constructor.
Qed.

(** One event moves the step of the first variant by a press on next from
    step 1, by a successful response from step 2, or not at all. *)
Lemma page_step_transition ev st :
  page_invariant st ->
  step (dispatch proto_member ev st) = step st
  \/ (step st = 1 /\ step (dispatch proto_member ev st) = 2
      /\ ev = NextClick)
  \/ (step st = 2 /\ step (dispatch proto_member ev st) = 3
      /\ exists b, ev = FetchSettled (Fetch.Resolves true b)).
Proof.
  intros (Hs & Hl & Hc). unfold dispatch, fire.
  destruct ev;
    try (repeat match goal with
                | |- context [if ?b then _ else _] => destruct b eqn:?
                end; left; reflexivity).
  - destruct (step st =? 1) eqn:E; [| now left].
    apply Nat.eqb_eq in E. right; left; auto.
  - destruct (loading st) eqn:Hload; [| now left].
    destruct o as [e | [|] [e | err]]; simpl; auto.
    right; right; repeat split; eauto.
    right; right; repeat split; eauto.
Qed.

End PageMachine.

Section PartSteps.

Import Part000.

Variable proto_member : jsstring -> option jsstring.

(** One event moves the step of the second variant by a successful
    response from step 2, or not at all. *)
Lemma part_step_transition ev st :
  part_invariant st ->
  step (dispatch proto_member ev st) = step st
  \/ (step st = 2 /\ step (dispatch proto_member ev st) = 3
      /\ exists b, ev = FetchSettled (Fetch.Resolves true b)).
Proof.
  intros (Hs & Hl & Hd & Hc). unfold dispatch, fire.
  destruct ev;
    try (repeat match goal with
                | |- context [if ?b then _ else _] => destruct b eqn:?
                end; left; reflexivity).
  destruct (loading st) eqn:Hload; [| now left].
  destruct o as [e | [|] [e | err]]; simpl; auto;
    right; repeat split; eauto.
Qed.

End PartSteps.

(** C8.  The step marker starts at 1 on the first variant and at 2 on the
    second.  From any state the page can be in, one event either leaves the
    step where it is or moves it up by one: from 1 to 2 by the next button,
    from 2 to 3 by a successful submission response.  So over every
    sequence of events the step never decreases, and step 3 is never left. *)
Theorem step_only_advances :
  forall proto_member : jsstring -> option jsstring,
    Page.step Page.initial = 1
    /\ Part000.step Part000.initial = 2
    /\ (forall st ev,
          Page.reachable proto_member st ->
          let st' := Page.dispatch proto_member ev st in
          Page.step st' = Page.step st
          \/ (Page.step st = 1 /\ Page.step st' = 2 /\ ev = Page.NextClick)
          \/ (Page.step st = 2 /\ Page.step st' = 3
              /\ exists b,
                  ev = Page.FetchSettled (Fetch.Resolves true b)))
    /\ (forall st evs,
          Page.reachable proto_member st ->
          Page.step st <= Page.step (Page.run proto_member evs st)
          /\ (Page.step st = 3 ->
              Page.step (Page.run proto_member evs st) = 3))
    /\ (forall st ev,
          Part000.reachable proto_member st ->
          let st' := Part000.dispatch proto_member ev st in
          Part000.step st' = Part000.step st
          \/ (Part000.step st = 2 /\ Part000.step st' = 3
              /\ exists b,
                  ev = Part000.FetchSettled (Fetch.Resolves true b)))
    /\ (forall st evs,
          Part000.reachable proto_member st ->
          Part000.step st <= Part000.step (Part000.run proto_member evs st)
          /\ (Part000.step st = 3 ->
              Part000.step (Part000.run proto_member evs st) = 3)).
Proof.
  intros pm.
  split; [reflexivity |]. split; [reflexivity |].
  split; [| split; [| split]].
  - intros st ev Hr. apply page_step_transition.
    now apply page_reachable_invariant with (proto_member := pm).
  - intros st evs; revert st; induction evs as [| ev evs IH];
      intros st Hr; simpl; [auto |].
    destruct (IH _ (Page.reach_dispatch pm ev st Hr)) as [Hle H3].
    pose proof (page_step_transition pm ev st
                  (page_reachable_invariant pm st Hr)) as Ht.
    split; [lia |]. intros E; apply H3; lia.
  - intros st ev Hr. apply part_step_transition.
    now apply part_reachable_invariant with (proto_member := pm).
  - intros st evs; revert st; induction evs as [| ev evs IH];
      intros st Hr; simpl; [auto |].
    destruct (IH _ (Part000.reach_dispatch pm ev st Hr)) as [Hle H3].
    pose proof (part_step_transition pm ev st
                  (part_reachable_invariant pm st Hr)) as Ht.
    split; [lia |]. intros E; apply H3; lia.
Qed.

Lemma step_only_advances_witness :
  Page.reachable (fun _ => None) page_filled
  /\ Page.step page_filled
     <= Page.step
          (Page.run (fun _ => None)
             [Page.SubmitClick;
              Page.FetchSettled (Fetch.Resolves true (Fetch.BodyJson None));
              Page.NextClick; Page.NameChange (lit "x")]
             page_filled)
  /\ Page.step
       (Page.run (fun _ => None)
          [Page.SubmitClick;
           Page.FetchSettled (Fetch.Resolves true (Fetch.BodyJson None));
           Page.NextClick; Page.NameChange (lit "x")]
          page_filled) = 3.
Proof.
  assert (Hr : Page.reachable (fun _ => None) page_filled)
    by (apply page_reachable_run; constructor).
  destruct (step_only_advances (fun _ => None))
    as (_ & _ & _ & Hrun & _).
  split; [exact Hr |]. split.
  - apply (Hrun page_filled _ Hr).
  - reflexivity.
Defined.

(** C7, as stated, fails: when the request itself fails, the alert shows
    the message of the thrown error, which is neither a message of the
    server nor one of the fallback texts.  Here the second variant is
    filled in, the form is valid, and [fetch] rejects with a TypeError. *)
Lemma handleSubmit_network_failure_alert :
  Part000.step part_filled = 2
  /\ Part000.isFormValid part_filled = true
  /\ Part000.alerts (Part000.handleSubmit network_failure part_filled)
     = [lit "Failed to fetch"]
  /\ ~ alert_as_claimed network_failure
         (Part000.alerts part_filled)
         (Part000.alerts (Part000.handleSubmit network_failure part_filled)).
Proof.
  split; [reflexivity |]. split; [vm_compute; reflexivity |].
  split; [vm_compute; reflexivity |].
  intros (msg & Hshown & Hmsg).
  vm_compute in Hshown. injection Hshown as <-.
  destruct Hmsg as [H | H]; vm_compute in H; discriminate.
Qed.

(** C7, amended.  For every run of [handleSubmit] from step 2, on both
    pages: a successful response moves the step to 3 and shows no alert;
    otherwise the step stays 2 and one alert is shown.  For a failure
    response whose body is read, the alert holds the server-provided error
    message when there is one and the fallback text otherwise; when the
    request or the reading of the body throws, it holds the message of the
    thrown error, or the retry fallback text when what was thrown is not an
    Error.  In every case the busy flag is reset. *)
Theorem handleSubmit_outcome :
  forall o : Fetch.outcome,
    (forall st : Page.State,
        Page.step st = 2 ->
        let st' := Page.handleSubmit o st in
        Page.step st' = expected_step o
        /\ Page.alerts st' = Page.alerts st ++ expected_alert o
        /\ Page.loading st' = false)
    /\
    (forall st : Part000.State,
        Part000.step st = 2 ->
        let st' := Part000.handleSubmit o st in
        Part000.step st' = expected_step o
        /\ Part000.alerts st' = Part000.alerts st ++ expected_alert o
        /\ Part000.loading st' = false).
Proof.
  intros o; split; intros st Hstep;
    destruct o as [[m |] | [|] [[m |] | [[| c r] |]]]; simpl;
    rewrite ?app_nil_r; auto.
Qed.

Lemma handleSubmit_outcome_witness :
  Part000.step part_filled = 2
  /\ Part000.step
       (Part000.handleSubmit
          (Fetch.Resolves false (Fetch.BodyJson (Some (lit "중복 신청"))))
          part_filled) = 2
  /\ Part000.alerts
       (Part000.handleSubmit
          (Fetch.Resolves false (Fetch.BodyJson (Some (lit "중복 신청"))))
          part_filled) = [lit "중복 신청"]
  /\ Page.step
       (Page.handleSubmit (Fetch.Resolves true (Fetch.BodyJson None))
          page_filled) = 3.
Proof.
  assert (H2 : Part000.step part_filled = 2) by reflexivity.
  assert (P2 : Page.step page_filled = 2) by reflexivity.
  split; [exact H2 |].
  destruct (proj2 (handleSubmit_outcome
                     (Fetch.Resolves false
                        (Fetch.BodyJson (Some (lit "중복 신청")))))
              part_filled H2) as (Hs & Ha & _).
  destruct (proj1 (handleSubmit_outcome
                     (Fetch.Resolves true (Fetch.BodyJson None)))
              page_filled P2) as (Ps & _ & _).
  split; [exact Hs |]. split; [exact Ha | exact Ps].
Defined.

(** ** The payload of the second variant *)

Section PracticeDate.

Import Part000.

Lemma digit_not_hyphen (c : code_unit) :
  is_digit c = true -> (c =? hyphen)%N = false.
Proof.
  unfold is_digit, hyphen; intros H.
  apply andb_true_iff in H as [H _]. apply N.leb_le in H.
  apply N.eqb_neq. lia.
Qed.

Lemma remove_first_hyphen_after_digits (a b : jsstring) :
  forallb is_digit a = true ->
  remove_first_hyphen (a ++ hyphen :: b) = a ++ b.
Proof.
  induction a as [| c a IH]; simpl; intros H.
  - reflexivity.
  - apply andb_true_iff in H as [Hc Ha].
    now rewrite (digit_not_hyphen c Hc), IH.
Qed.

Lemma remove_first_hyphen_digits (d : jsstring) :
  forallb is_digit d = true -> remove_first_hyphen d = d.
Proof.
  induction d as [| c d IH]; simpl; intros H; [reflexivity |].
  apply andb_true_iff in H as [Hc Hd].
  now rewrite (digit_not_hyphen c Hc), IH.
Qed.

Lemma strip_hyphens_digits (d : jsstring) :
  forallb is_digit d = true -> strip_hyphens d = d.
Proof.
  unfold strip_hyphens.
  induction d as [| c d IH]; simpl; intros H; [reflexivity |].
  apply andb_true_iff in H as [Hc Hd].
  now rewrite (digit_not_hyphen c Hc), IH.
Qed.

Lemma strip_hyphens_after_digits (a b : jsstring) :
  forallb is_digit a = true -> forallb is_digit b = true ->
  strip_hyphens (a ++ hyphen :: b) = a ++ b.
Proof.
  intros Ha Hb.
  induction a as [| c a IH].
  - simpl. fold (strip_hyphens b). now apply strip_hyphens_digits.
  - simpl in Ha. apply andb_true_iff in Ha as [Hc Ha].
    unfold strip_hyphens in *; simpl.
    now rewrite (digit_not_hyphen c Hc), IH.
Qed.

(** A formatted practice date holds one separator at most, so replacing
    the first one removes them all. *)
Lemma remove_first_hyphen_formatPracticeDate (value : jsstring) :
  remove_first_hyphen (formatPracticeDate value)
  = strip_hyphens (formatPracticeDate value).
Proof.
  unfold formatPracticeDate, slice, slice_from.
  set (digits := firstn (6 - 0) (skipn 0 (strip_non_digits value))).
  assert (Hd : forallb is_digit digits = true)
    by (apply forallb_firstn, forallb_skipn, strip_non_digits_all_digits).
  destruct (length digits <=? 4).
  - now rewrite remove_first_hyphen_digits, strip_hyphens_digits.
  - change (4 - 0) with 4; change (skipn 0 digits) with digits.
    change (Contact.dash ++ skipn 4 digits)
      with (hyphen :: skipn 4 digits).
    rewrite remove_first_hyphen_after_digits,
      strip_hyphens_after_digits;
      auto using forallb_firstn, forallb_skipn.
Qed.

Lemma support_fund_hope_iff (f : SupportFund) :
  str_eqb (SupportFund_text f) (lit "희망함") = true <-> f = FundHope.
Proof. destruct f; vm_compute; split; congruence. Qed.

End PracticeDate.

(** C9.  For every form state the second variant can be in at submission
    time, the payload sent by [handleSubmit] is [submitData], in which: the
    type label is the combined label when both services are set, the
    practice label when only practice is set and the employment label
    otherwise, the three labels being different; the practice date, sent
    when practice is set, is the stored one without its separator; and the
    support-fund member is true exactly for the choice "희망함". *)
Theorem submitData_business_rules :
  forall (proto_member : jsstring -> option jsstring) (st : Part000.State),
    Part000.reachable proto_member st ->
    let fd := Part000.formData st in
    let d := Part000.submitData st in
    Part000.requests (Part000.handleSubmit_begin st)
    = Part000.requests st ++ [d]
    /\ (Part000.service_practice fd = true ->
        Part000.service_employment fd = true ->
        Part000.sd_type d = Part000.type_both)
    /\ (Part000.service_practice fd = true ->
        Part000.service_employment fd = false ->
        Part000.sd_type d = Part000.type_practice)
    /\ (Part000.service_practice fd = false ->
        Part000.sd_type d = Part000.type_employment)
    /\ (Part000.type_both <> Part000.type_practice
        /\ Part000.type_both <> Part000.type_employment
        /\ Part000.type_practice <> Part000.type_employment)
    /\ (Part000.service_practice fd = true ->
        Part000.sd_practice_planned_date d
        = Some (strip_hyphens (Part000.practice_planned_date fd)))
    /\ (Part000.sd_employment_support_fund d = true
        <-> Part000.employment_support_fund fd = Part000.FundHope).
Proof.
  intros pm st Hr fd d.
  destruct (part_reachable_invariant pm st Hr) as (_ & _ & [v Hv] & _).
  subst d fd; unfold Part000.submitData; simpl.
  split; [reflexivity |].
  split; [intros -> ->; reflexivity |].
  split; [intros -> ->; reflexivity |].
  split; [intros ->; reflexivity |].
  split; [repeat split; vm_compute; discriminate |].
  split.
  - intros ->. rewrite Hv.
    now rewrite remove_first_hyphen_formatPracticeDate.
  - apply support_fund_hope_iff.
Qed.

Lemma submitData_business_rules_witness :
  Part000.reachable (fun _ => None) part_filled
  /\ Part000.service_practice (Part000.formData part_filled) = true
  /\ Part000.practice_planned_date (Part000.formData part_filled)
     = lit "2025-03"
  /\ Part000.sd_practice_planned_date (Part000.submitData part_filled)
     = Some (lit "202503")
  /\ Part000.sd_type (Part000.submitData part_filled) = lit "실습".
Proof.
  assert (Hr : Part000.reachable (fun _ => None) part_filled)
    by (apply part_reachable_run; constructor).
  destruct (submitData_business_rules (fun _ => None) part_filled Hr)
    as (_ & _ & Htype & _ & _ & Hdate & _).
  split; [exact Hr |]. split; [reflexivity |]. split; [reflexivity |].
  split.
  - rewrite (Hdate eq_refl). reflexivity.
  - rewrite (Htype eq_refl eq_refl). reflexivity.
Defined.

(** C10.  In the second variant, a payload built while the practice
    service is not selected has a null practice date, whatever date is
    stored; choosing the employment-only option stores the empty date; so
    a payload that carries a practice date has the practice service set. *)
Theorem practice_date_needs_practice_service :
  forall (proto_member : jsstring -> option jsstring) (st : Part000.State),
    (Part000.service_practice (Part000.formData st) = false ->
     Part000.sd_practice_planned_date (Part000.submitData st) = None)
    /\ (Part000.step st = 2 ->
        let st' := Part000.dispatch proto_member Part000.PickEmployment st in
        Part000.practice_planned_date (Part000.formData st') = []
        /\ Part000.service_practice (Part000.formData st') = false
        /\ Part000.service_employment (Part000.formData st') = true)
    /\ (forall date,
          Part000.sd_practice_planned_date (Part000.submitData st)
          = Some date ->
          Part000.sd_service_practice (Part000.submitData st) = true).
Proof.
  intros pm st. split; [| split].
  - unfold Part000.submitData; simpl. now intros ->.
  - intros Hstep. unfold Part000.dispatch, Part000.fire.
    rewrite Hstep; simpl. auto.
  - intros date. unfold Part000.submitData; simpl.
    destruct (Part000.service_practice (Part000.formData st));
      [reflexivity | discriminate].
Qed.

Lemma practice_date_needs_practice_service_witness :
  Part000.step part_filled = 2
  /\ Part000.practice_planned_date (Part000.formData part_filled)
     = lit "2025-03"
  /\ Part000.sd_practice_planned_date
       (Part000.submitData
          (Part000.dispatch (fun _ => None) Part000.PickEmployment
             part_filled)) = None.
Proof.
  assert (H2 : Part000.step part_filled = 2) by reflexivity.
  split; [exact H2 |]. split; [reflexivity |].
  destruct (practice_date_needs_practice_service (fun _ => None)
              (Part000.dispatch (fun _ => None) Part000.PickEmployment
                 part_filled)) as (Hnull & _ & _).
  destruct (practice_date_needs_practice_service (fun _ => None)
              part_filled) as (_ & Hpick & _).
  apply Hnull. apply (Hpick H2).
Defined.

(* ================================================================= *)
(** * Further properties of the code *)

(** ** Source codes outside the table *)

(** X1.  A source code that is no key of the table and names no member of
    Object.prototype is used verbatim as the display name, on both pages,
    with the same choice of suffix as for a supported code. *)
Theorem formatClickSource_unknown_code_verbatim :
  forall (proto_member : jsstring -> option jsstring) (code : jsstring),
    Attribution.own_property Attribution.sourceMap code = None ->
    proto_member code = None ->
    Attribution.shortSource proto_member code = code
    /\ suffix_by_precedence
         Attribution.underscore Attribution.underscore
         Attribution.material_token
         (base_label Page.homepageName code)
         (Page.formatClickSource proto_member code)
    /\ suffix_by_precedence
         Attribution.underscore Attribution.underscore
         Attribution.material_token
         (base_label Part000.homepageName code)
         (Part000.formatClickSource proto_member code).
Proof.
  intros pm code Hown Hproto.
  assert (Hs : Attribution.shortSource pm code = code).
  { unfold Attribution.shortSource, Attribution.sourceMap_get.
    now rewrite Hown, Hproto. }
  split; [exact Hs |].
  rewrite <- Hs at 1 3.
  split; apply formatClickSource_with_precedence.
Qed.

Lemma formatClickSource_unknown_code_verbatim_witness :
  Attribution.own_property Attribution.sourceMap (lit "newsletter") = None
  /\ Part000.formatClickSource (fun _ => None) (lit "newsletter")
       None None (Some (lit "c9"))
     = lit "취업상담신청_newsletter_c9".
Proof.
  assert (Hown : Attribution.own_property Attribution.sourceMap
                   (lit "newsletter") = None) by (vm_compute; reflexivity).
  destruct (formatClickSource_unknown_code_verbatim (fun _ => None)
              (lit "newsletter") Hown eq_refl)
    as (_ & _ & (_ & _ & Hcafe & _)).
  split; [exact Hown |].
  rewrite (Hcafe None None (lit "c9") eq_refl); [reflexivity |].
  vm_compute; discriminate.
Defined.

(** ** The contact field while typing *)

Section FormattedContact.

Import Contact.

Lemma is_digit_range (c : code_unit) :
  is_digit c = true -> (48 <= c <= 57)%N.
Proof.
  unfold is_digit; intros H. apply andb_true_iff in H as [H1 H2].
  apply N.leb_le in H1, H2. lia.
Qed.

Lemma digit_not_space (c : code_unit) :
  is_digit c = true -> is_space c = false.
Proof.
  intros H; apply is_digit_range in H.
  assert (E : (c = 48 \/ c = 49 \/ c = 50 \/ c = 51 \/ c = 52 \/ c = 53
               \/ c = 54 \/ c = 55 \/ c = 56 \/ c = 57)%N) by lia.
  repeat (destruct E as [-> | E]; [reflexivity |]). now subst.
Qed.

Lemma digit_kept_by_strip_separators (c : code_unit) :
  is_digit c = true -> negb ((c =? hyphen)%N || is_space c) = true.
Proof.
  intros H. rewrite (digit_not_space c H).
  apply is_digit_range in H.
  destruct (N.eqb_spec c hyphen) as [E | E]; [| reflexivity].
  unfold hyphen in E; lia.
Qed.

Lemma strip_separators_digits (d : jsstring) :
  forallb is_digit d = true -> strip_separators d = d.
Proof.
  unfold strip_separators.
  induction d as [| c d IH]; simpl; intros H; [reflexivity |].
  apply andb_true_iff in H as [Hc Hd].
  now rewrite (digit_kept_by_strip_separators c Hc), IH.
Qed.

Lemma strip_separators_dash : strip_separators dash = [].
Proof. reflexivity. Qed.

Lemma strip_separators_app (a b : jsstring) :
  strip_separators (a ++ b) = strip_separators a ++ strip_separators b.
Proof. apply filter_app. Qed.

(** The validator sees the digits of a formatted contact. *)
Lemma strip_separators_insert_separators (d : jsstring) :
  forallb is_digit d = true ->
  strip_separators (insert_separators d) = d.
Proof.
  intros Hd; unfold insert_separators.
  assert (H3 : strip_separators (firstn 3 d) = firstn 3 d)
    by (apply strip_separators_digits, forallb_firstn, Hd).
  assert (H4 : strip_separators (firstn 4 (skipn 3 d))
               = firstn 4 (skipn 3 d))
    by (apply strip_separators_digits, forallb_firstn, forallb_skipn, Hd).
  assert (H7 : strip_separators (skipn 7 d) = skipn 7 d)
    by (apply strip_separators_digits, forallb_skipn, Hd).
  assert (Hnil : strip_separators [] = []) by reflexivity.
  destruct (Nat.ltb_spec 3 (length d)) as [L3 | L3];
    destruct (Nat.ltb_spec 7 (length d)) as [L7 | L7];
    rewrite !strip_separators_app, ?strip_separators_dash, ?Hnil,
      ?H3, ?H4, ?H7, ?app_nil_l, ?app_nil_r.
  - apply groups_rejoin.
  - rewrite <- (groups_rejoin d) at 3.
    rewrite (@skipn_all2 _ 7 d) by lia. now rewrite app_nil_r.
  - lia.
  - apply firstn_all2; lia.
Qed.

Lemma length_insert_separators (d : jsstring) :
  length d <= 11 -> length (insert_separators d) <= 13.
Proof.
  intros Hd; unfold insert_separators.
  destruct (3 <? length d), (7 <? length d);
    rewrite ?length_app, ?length_firstn, ?length_skipn; simpl length; lia.
Qed.

Lemma startsWith_firstn (n : nat) (p s : jsstring) :
  length p <= n -> startsWith (firstn n s) p = startsWith s p.
Proof.
  revert n s; induction p as [| y p IH]; intros n s Hn.
  - now destruct (firstn n s), s.
  - destruct n as [| n]; simpl in Hn; [lia |].
    destruct s as [| x s]; simpl; [reflexivity |].
    rewrite IH by lia. reflexivity.
Qed.

Lemma startsWith_short (s p : jsstring) :
  length s < length p -> startsWith s p = false.
Proof.
  revert s; induction p as [| y p IH]; intros s H; simpl in H; [lia |].
  destruct s as [| x s]; simpl; [reflexivity |].
  simpl in H. rewrite IH by lia. apply andb_false_r.
Qed.

Lemma formatContact_cleaned (value : jsstring) :
  strip_separators (formatContact value)
  = firstn 11 (strip_non_digits value).
Proof.
  rewrite formatContact_shape.
  apply strip_separators_insert_separators, forallb_firstn,
    strip_non_digits_all_digits.
Qed.

End FormattedContact.

(** X2.  A formatted contact is at most 13 characters long, the validator
    sees exactly the first eleven digits of what was typed, and the length
    condition of [isFormValid] holds for it exactly when at least ten digits
    were typed. *)
Theorem formatContact_length_and_digit_count :
  forall value : jsstring,
    let digits := strip_non_digits value in
    strip_separators (Contact.formatContact value) = firstn 11 digits
    /\ length (Contact.formatContact value) <= 13
    /\ (Contact.contact_long_enough (Contact.formatContact value) = true
        <-> 10 <= length digits).
Proof.
  intros value digits.
  split; [apply formatContact_cleaned |]. split.
  - rewrite formatContact_shape. apply length_insert_separators.
    apply firstn_le_length.
  - rewrite contact_long_enough_iff, formatContact_cleaned.
    fold digits. rewrite length_firstn. lia.
Qed.

(** X3.  After formatting, the validator accepts a typed value exactly when
    it holds no digit or its digits begin with "010" or "011".  So a value
    with one or two digits is always rejected with the prefix message, even
    when it is the beginning of an allowed number. *)
Theorem validateContact_of_formatted :
  forall value : jsstring,
    let digits := strip_non_digits value in
    (Contact.validateContact (Contact.formatContact value) = (true, [])
     <-> digits = []
         \/ startsWith digits (lit "010") = true
         \/ startsWith digits (lit "011") = true)
    /\ (0 < length digits < 3 ->
        Contact.validateContact (Contact.formatContact value)
        = (false, Contact.prefix_error)).
Proof.
  intros value digits.
  assert (Hallowed : allowed_prefix (Contact.formatContact value)
                     <-> digits = []
                         \/ startsWith digits (lit "010") = true
                         \/ startsWith digits (lit "011") = true).
  { unfold allowed_prefix. rewrite formatContact_cleaned. fold digits.
    rewrite !startsWith_firstn by (vm_compute; lia).
    assert (firstn 11 digits = [] <-> digits = [])
      by (destruct digits; simpl; split; congruence).
    tauto. }
  destruct (validateContact_cases (Contact.formatContact value))
    as [[Hok ->] | [Hbad ->]].
  - split; [tauto |].
    intros Hlen. exfalso.
    apply Hallowed in Hok as [E | [E | E]].
    + rewrite E in Hlen; simpl in Hlen; lia.
    + rewrite startsWith_short in E
        by (change (length (lit "010")) with 3; lia).
      discriminate.
    + rewrite startsWith_short in E
        by (change (length (lit "011")) with 3; lia).
      discriminate.
  - split; [| reflexivity].
    split; [discriminate | tauto].
Qed.

Lemma validateContact_of_formatted_witness :
  0 < length (strip_non_digits (lit "01")) < 3
  /\ Contact.validateContact (Contact.formatContact (lit "01"))
     = (false, Contact.prefix_error).
Proof.
  assert (H : 0 < length (strip_non_digits (lit "01")) < 3)
    by (vm_compute; lia).
  split; [exact H |].
  apply (proj2 (validateContact_of_formatted (lit "01")) H).
Defined.

(** ** The practice date field *)

Section PracticeDateField.

Import Part000.

(** [formatPracticeDate] in terms of the first six digits of its input. *)
Lemma formatPracticeDate_shape (value : jsstring) :
  formatPracticeDate value
  = if length (firstn 6 (strip_non_digits value)) <=? 4
    then firstn 6 (strip_non_digits value)
    else firstn 4 (firstn 6 (strip_non_digits value))
         ++ hyphen :: skipn 4 (firstn 6 (strip_non_digits value)).
Proof. reflexivity. Qed.

Lemma six_digits_all_digits (value : jsstring) :
  forallb is_digit (firstn 6 (strip_non_digits value)) = true.
Proof. apply forallb_firstn, strip_non_digits_all_digits. Qed.

Lemma strip_non_digits_around_hyphen (a b : jsstring) :
  strip_non_digits (a ++ hyphen :: b)
  = strip_non_digits a ++ strip_non_digits b.
Proof. unfold strip_non_digits. now rewrite filter_app. Qed.

Lemma strip_non_digits_formatPracticeDate (value : jsstring) :
  strip_non_digits (formatPracticeDate value)
  = firstn 6 (strip_non_digits value).
Proof.
  rewrite formatPracticeDate_shape.
  pose proof (six_digits_all_digits value) as Hd.
  set (d := firstn 6 (strip_non_digits value)) in *.
  destruct (length d <=? 4).
  - now apply strip_non_digits_digits.
  - rewrite strip_non_digits_around_hyphen,
      !strip_non_digits_digits
      by auto using forallb_firstn, forallb_skipn.
    apply firstn_skipn.
Qed.

Lemma remove_first_hyphen_formatted_date (value : jsstring) :
  remove_first_hyphen (formatPracticeDate value)
  = firstn 6 (strip_non_digits value).
Proof.
  rewrite formatPracticeDate_shape.
  pose proof (six_digits_all_digits value) as Hd.
  set (d := firstn 6 (strip_non_digits value)) in *.
  destruct (length d <=? 4).
  - now apply remove_first_hyphen_digits.
  - rewrite remove_first_hyphen_after_digits by now apply forallb_firstn.
    apply firstn_skipn.
Qed.

Lemma length_formatPracticeDate (value : jsstring) :
  length (formatPracticeDate value)
  = let n := Nat.min 6 (length (strip_non_digits value)) in
    if n <=? 4 then n else S n.
Proof.
  rewrite formatPracticeDate_shape.
  rewrite <- (length_firstn 6 (strip_non_digits value)).
  set (d := firstn 6 (strip_non_digits value)).
  cbv zeta. destruct (Nat.leb_spec (length d) 4) as [L | L].
  - reflexivity.
  - rewrite length_app. cbn [length].
    rewrite length_firstn, length_skipn. lia.
Qed.

End PracticeDateField.

(** X4.  [formatPracticeDate] is idempotent: a date it has formatted is
    left as it is when the field is formatted again. *)
Theorem formatPracticeDate_idempotent :
  forall value : jsstring,
    Part000.formatPracticeDate (Part000.formatPracticeDate value)
    = Part000.formatPracticeDate value.
Proof.
  intros value.
  rewrite (formatPracticeDate_shape (Part000.formatPracticeDate value)).
  rewrite strip_non_digits_formatPracticeDate.
  rewrite (firstn_all2 (n := 6) (firstn 6 (strip_non_digits value)))
    by apply firstn_le_length.
  symmetry; apply formatPracticeDate_shape.
Qed.

(** X5.  A formatted practice date is at most 7 characters long; it has
    the 7 characters [isFormValid] asks for exactly when at least six digits
    were typed, and it is then the first four digits, the separator and the
    next two digits.  Replacing the separator as [handleSubmit] does gives
    the first six digits typed. *)
Theorem formatPracticeDate_length_and_shape :
  forall value : jsstring,
    let digits := strip_non_digits value in
    length (Part000.formatPracticeDate value) <= 7
    /\ (length (Part000.formatPracticeDate value) = 7
        <-> 6 <= length digits)
    /\ (6 <= length digits ->
        Part000.formatPracticeDate value
        = firstn 4 digits ++ [hyphen] ++ firstn 2 (skipn 4 digits))
    /\ remove_first_hyphen (Part000.formatPracticeDate value)
       = firstn 6 digits.
Proof.
  intros value digits.
  pose proof (length_formatPracticeDate value) as Hlen.
  cbv zeta in Hlen. fold digits in Hlen.
  destruct (Nat.leb_spec (Nat.min 6 (length digits)) 4) as [L | L].
  - split; [lia |]. split; [lia |]. split; [lia |].
    apply remove_first_hyphen_formatted_date.
  - split; [lia |]. split; [lia |].
    split; [| apply remove_first_hyphen_formatted_date].
    intros _. rewrite formatPracticeDate_shape. fold digits.
    destruct (Nat.leb_spec (length (firstn 6 digits)) 4) as [L' | L'];
      [rewrite length_firstn in L'; lia |].
    rewrite firstn_firstn, skipn_firstn_comm.
    reflexivity.
Qed.

Lemma formatPracticeDate_length_and_shape_witness :
  6 <= length (strip_non_digits (lit "2025/03/17"))
  /\ Part000.formatPracticeDate (lit "2025/03/17") = lit "2025-03".
Proof.
  assert (H : 6 <= length (strip_non_digits (lit "2025/03/17")))
    by (vm_compute; lia).
  split; [exact H |].
  destruct (formatPracticeDate_length_and_shape (lit "2025/03/17"))
    as (_ & _ & Hshape & _).
  rewrite (Hshape H). reflexivity.
Defined.

(** ** The first variant: progress, course dialog *)

(** X6.  The progress count of the first variant never exceeds the three
    required fields, and it reaches three exactly when the form can be
    submitted. *)
Theorem filledFields_full_iff_valid :
  forall st : Page.State,
    Page.filledFields st <= Page.totalFields
    /\ (Page.filledFields st = Page.totalFields
        <-> Page.isFormValid st = true).
Proof.
  intros st. unfold Page.filledFields, Page.isFormValid, Page.totalFields.
  destruct (0 <? length (Page.name (Page.formData st)));
    destruct (Contact.contact_long_enough
                (Page.contact (Page.formData st)));
    destruct (negb (nonempty (Page.contactError st)));
    destruct (Page.privacyAgreed st); simpl;
    (split; [lia | split; intros H; try reflexivity; try discriminate;
                   try lia]).
Qed.

Section CourseDialog.

Import Page.

Lemma str_eqb_eq (a b : jsstring) : str_eqb a b = true <-> a = b.
Proof.
  revert b; induction a as [| x a IH]; intros [| y b]; simpl;
    try (split; [discriminate | congruence]); [tauto |].
  rewrite andb_true_iff, N.eqb_eq, IH.
  split; [intros [-> ->]; reflexivity | intros E; now injection E].
Qed.

Lemma str_eqb_refl (a : jsstring) : str_eqb a a = true.
Proof. now apply str_eqb_eq. Qed.

Lemma str_eqb_neq (a b : jsstring) : a <> b -> str_eqb a b = false.
Proof.
  intros H. apply not_true_is_false. intros E. now apply str_eqb_eq in E.
Qed.

Lemma includes_In (l : list jsstring) (x : jsstring) :
  includes l x = true <-> In x l.
Proof.
  unfold includes. rewrite existsb_exists. split.
  - intros (y & Hy & E). apply str_eqb_eq in E. now subst.
  - intros H. exists x. split; [exact H | apply str_eqb_refl].
Qed.

Lemma includes_without (l : list jsstring) (course other : jsstring) :
  includes (filter (fun c => negb (str_eqb c course)) l) other
  = includes l other && negb (str_eqb other course).
Proof.
  unfold includes. induction l as [| c l IH]; simpl; [reflexivity |].
  destruct (str_eqb c course) eqn:Ec; simpl.
  - apply str_eqb_eq in Ec; subst c. rewrite IH.
    destruct (str_eqb other course) eqn:Eo; simpl.
    + now rewrite !andb_false_r.
    + reflexivity.
  - rewrite IH. destruct (str_eqb other c) eqn:Eoc; simpl; [| reflexivity].
    apply str_eqb_eq in Eoc; subst c. now rewrite Ec.
Qed.

Lemma includes_with (l : list jsstring) (course other : jsstring) :
  includes (l ++ [course]) other
  = includes l other || str_eqb other course.
Proof.
  unfold includes. rewrite existsb_app. simpl. now rewrite orb_false_r.
Qed.

Lemma filter_absent (l : list jsstring) (course : jsstring) :
  includes l course = false ->
  filter (fun c => negb (str_eqb c course)) l = l.
Proof.
  unfold includes. induction l as [| c l IH]; simpl; [reflexivity |].
  intros H. apply orb_false_iff in H as [Hc Hl].
  assert (E : str_eqb c course = false).
  { apply not_true_is_false. intros E. apply str_eqb_eq in E. subst c.
    now rewrite str_eqb_refl in Hc. }
  now rewrite E, IH.
Qed.

End CourseDialog.

(** X7.  [toggleCourse] flips the membership of the course it is given and
    of no other course, keeps the selection free of duplicates, and applied
    twice to a course that was not selected it restores the selection. *)
Theorem toggleCourse_flips_membership :
  forall (course : jsstring) (st : Page.State),
    let sel := Page.selectedCourses st in
    let sel' := Page.selectedCourses (Page.toggleCourse course st) in
    Page.includes sel' course = negb (Page.includes sel course)
    /\ (forall other, other <> course ->
          Page.includes sel' other = Page.includes sel other)
    /\ (NoDup sel -> NoDup sel')
    /\ (Page.includes sel course = false ->
        Page.selectedCourses
          (Page.toggleCourse course (Page.toggleCourse course st)) = sel).
Proof.
  intros course st sel sel'. subst sel'.
  unfold Page.toggleCourse at 1 2 3; simpl. fold sel.
  destruct (Page.includes sel course) eqn:E.
  - split; [| split; [| split]].
    + rewrite includes_without, str_eqb_refl. apply andb_false_r.
    + intros other Ho. rewrite includes_without, str_eqb_neq by exact Ho.
      apply andb_true_r.
    + apply NoDup_filter.
    + discriminate.
  - split; [| split; [| split]].
    + rewrite includes_with, str_eqb_refl. apply orb_true_r.
    + intros other Ho. rewrite includes_with, str_eqb_neq by exact Ho.
      apply orb_false_r.
    + intros Hnd. apply NoDup_app; [exact Hnd | repeat constructor; auto |].
      intros a Ha [<- | []]. apply includes_In in Ha. congruence.
    + intros _. unfold Page.toggleCourse; simpl.
      rewrite includes_with, str_eqb_refl, orb_true_r.
      rewrite filter_app, (filter_absent sel course E). simpl.
      rewrite str_eqb_refl. simpl. apply app_nil_r.
Qed.

Lemma toggleCourse_flips_membership_witness :
  lit "보육교사" <> lit "아동학사"
  /\ Page.includes
       (Page.selectedCourses
          (Page.toggleCourse (lit "아동학사")
             (Page.toggleCourse (lit "보육교사") Page.initial)))
       (lit "보육교사") = true.
Proof.
  assert (Hne : lit "보육교사" <> lit "아동학사")
    by (vm_compute; discriminate).
  split; [exact Hne |].
  destruct (toggleCourse_flips_membership (lit "아동학사")
              (Page.toggleCourse (lit "보육교사") Page.initial))
    as (_ & Hother & _).
  rewrite (Hother _ Hne). reflexivity.
Defined.

Section Trimming.

Import Page.

Lemma trimStart_split (s : jsstring) :
  exists pre, s = pre ++ trimStart s /\ forallb is_space pre = true.
Proof.
  induction s as [| c s (pre & Hs & Hpre)]; simpl.
  - exists []; auto.
  - destruct (is_space c) eqn:Ec.
    + exists (c :: pre); simpl. rewrite Ec, Hpre.
      split; [f_equal; exact Hs | reflexivity].
    + exists []; auto.
Qed.

Lemma trimStart_head (s : jsstring) :
  match trimStart s with
  | c :: _ => is_space c = false
  | [] => True
  end.
Proof.
  induction s as [| c s IH]; simpl; [exact I |].
  destruct (is_space c) eqn:Ec; [exact IH | exact Ec].
Qed.

Lemma trimStart_nil_iff (s : jsstring) :
  trimStart s = [] <-> forallb is_space s = true.
Proof.
  induction s as [| c s IH]; simpl; [tauto |].
  destruct (is_space c); simpl; [exact IH |].
  split; discriminate.
Qed.

Lemma forallb_rev {A} (f : A -> bool) (l : list A) :
  forallb f (rev l) = forallb f l.
Proof.
  induction l as [| a l IH]; simpl; [reflexivity |].
  rewrite forallb_app, IH. simpl. rewrite andb_true_r. apply andb_comm.
Qed.

(** [trim] cuts a white prefix and a white suffix off its argument. *)
Lemma trim_split (s : jsstring) :
  exists pre post,
    s = pre ++ trim s ++ post
    /\ forallb is_space pre = true /\ forallb is_space post = true.
Proof.
  destruct (trimStart_split s) as (pre & Hs & Hpre).
  destruct (trimStart_split (rev (trimStart s))) as (q & Hr & Hq).
  exists pre, (rev q). repeat split; auto.
  - unfold trim. rewrite <- rev_app_distr, <- Hr, rev_involutive.
    exact Hs.
  - now rewrite forallb_rev.
Qed.

Lemma trim_no_outer_space (s : jsstring) : no_outer_space (trim s).
Proof.
  unfold no_outer_space, trim. rewrite rev_involutive.
  split; [| apply trimStart_head].
  destruct (trimStart_split (rev (trimStart s))) as (q & Hr & Hq).
  pose proof (trimStart_head s) as Hhead.
  apply (f_equal (@rev _)) in Hr.
  rewrite rev_involutive, rev_app_distr in Hr.
  destruct (rev (trimStart (rev (trimStart s)))) as [| c r] eqn:E;
    [exact I |].
  rewrite Hr in Hhead. exact Hhead.
Qed.

Lemma trim_nil_iff (s : jsstring) :
  trim s = [] <-> forallb is_space s = true.
Proof.
  unfold trim. split.
  - intros H. apply (f_equal (@rev _)) in H.
    rewrite rev_involutive in H. simpl in H.
    apply trimStart_nil_iff in H. rewrite forallb_rev in H.
    pose proof (trimStart_head s) as Hhead.
    apply trimStart_nil_iff.
    destruct (trimStart s) as [| c r]; [reflexivity |].
    simpl in H. rewrite Hhead in H. discriminate.
  - intros H. apply trimStart_nil_iff in H. rewrite H. reflexivity.
Qed.

End Trimming.

(** X8.  [confirmCourseSelection] closes the dialog and stores the selected
    courses joined by a comma and a space.  A free text that is blank adds
    nothing; any other free text adds one last entry, which is that text
    without the white space around it, so it is not empty and neither
    begins nor ends with white space. *)
Theorem confirmCourseSelection_custom_entry :
  forall st : Page.State,
    let st' := Page.confirmCourseSelection st in
    let custom := Page.customCourse st in
    Page.showCourseModal st' = false
    /\ (forallb is_space custom = true ->
        Page.hope_course (Page.formData st')
        = Page.join (lit ", ") (Page.selectedCourses st))
    /\ (forallb is_space custom = false ->
        exists pre entry post,
          custom = pre ++ entry ++ post
          /\ forallb is_space pre = true
          /\ forallb is_space post = true
          /\ entry <> []
          /\ no_outer_space entry
          /\ Page.hope_course (Page.formData st')
             = Page.join (lit ", ") (Page.selectedCourses st ++ [entry])).
Proof.
  intros st st' custom. subst st'.
  unfold Page.confirmCourseSelection; simpl. fold custom.
  split; [reflexivity |]. split.
  - intros Hblank. apply trim_nil_iff in Hblank. now rewrite Hblank.
  - intros Hsome.
    destruct (trim_split custom) as (pre & post & Hs & Hpre & Hpost).
    exists pre, (Page.trim custom), post.
    assert (Hne : Page.trim custom <> []).
    { intros E. apply trim_nil_iff in E. congruence. }
    repeat split; auto; try apply trim_no_outer_space.
    destruct (Page.trim custom); [congruence | reflexivity].
Qed.

Lemma confirmCourseSelection_custom_entry_witness :
  forallb is_space (lit "  ") = true
  /\ Page.hope_course
       (Page.formData
          (Page.confirmCourseSelection
             (Page.setCustomCourse (lit "  ")
                (Page.toggleCourse (lit "보육교사")
                   (Page.toggleCourse (lit "아동학사") Page.initial)))))
     = lit "아동학사, 보육교사".
Proof.
  assert (H : forallb is_space (lit "  ") = true) by reflexivity.
  split; [exact H |].
  destruct (confirmCourseSelection_custom_entry
              (Page.setCustomCourse (lit "  ")
                 (Page.toggleCourse (lit "보육교사")
                    (Page.toggleCourse (lit "아동학사") Page.initial))))
    as (_ & Hblank & _).
  rewrite (Hblank H). reflexivity.
Defined.

(** ** What the pages send *)

Section SentPayloads.

Variable proto_member : jsstring -> option jsstring.

Lemma startsWith_app_self (p s : jsstring) : startsWith (p ++ s) p = true.
Proof.
  induction p as [| y p IH]; simpl; [now destruct s |].
  now rewrite N.eqb_refl, IH.
Qed.

Lemma formatClickSource_with_prefix (home code : jsstring) m b c :
  startsWith
    (Attribution.formatClickSource_with proto_member home code m b c) home
  = true.
Proof.
  unfold Attribution.formatClickSource_with.
  destruct (truthy b), (truthy c), (truthy m); apply startsWith_app_self.
Qed.

Lemma ClickSourceHandler_with_prefix (home : jsstring) q clickSource :
  startsWith clickSource home = true ->
  startsWith
    (Attribution.ClickSourceHandler_with proto_member home q clickSource)
    home = true.
Proof.
  intros H. unfold Attribution.ClickSourceHandler_with.
  destruct (Attribution.utm_source q) as [[| c r] |]; auto.
  apply formatClickSource_with_prefix.
Qed.

Lemma snd_pair {A B} (a : A) (b : B) : snd (a, b) = b.
Proof. reflexivity. Qed.

(** A stored contact that passes the checks of [isFormValid] is a mobile
    number in display shape. *)
Lemma valid_contact_is_mobile (contact contactError : jsstring) :
  (exists value, contact = Contact.formatContact value) ->
  contactError = snd (Contact.validateContact contact) ->
  Contact.contact_long_enough contact = true ->
  contactError = [] ->
  mobile_contact contact.
Proof.
  intros [value ->] Herr Hlong Hnone.
  exists (firstn 11 (strip_non_digits value)).
  apply contact_long_enough_iff in Hlong.
  pose proof (formatContact_cleaned value) as Hclean.
  rewrite Hclean in Hlong.
  split; [apply forallb_firstn, strip_non_digits_all_digits |].
  split; [split; [exact Hlong | apply firstn_le_length] |].
  split; [| apply formatContact_shape].
  destruct (validateContact_cases (Contact.formatContact value))
    as [[Hok _] | [_ Hbad]].
  - unfold allowed_prefix in Hok. rewrite Hclean in Hok.
    destruct Hok as [E | Hok]; [| exact Hok].
    rewrite E in Hlong; simpl in Hlong; lia.
  - exfalso. apply prefix_error_nonempty.
    rewrite <- Hnone, Herr, Hbad. symmetry. apply snd_pair.
Qed.

(** The payload built from a valid form of the second variant. *)
Lemma part_valid_payload_ok (st : Part000.State) :
  part_invariant st -> part_sent_invariant st ->
  Part000.isFormValid st = true ->
  part_payload_ok (Part000.submitData st).
Proof.
  intros (_ & _ & [v Hv] & Herr) (Hcontact & Hlabel & Hhope & _) Hvalid.
  apply part_isFormValid_iff in Hvalid
    as (Hname & [Hlong Hnone] & Hservice & Hdate & Htime & _ & Hprivacy).
  unfold part_payload_ok, Part000.submitData; simpl.
  split; [exact Hname |].
  split.
  { apply (valid_contact_is_mobile _ (Part000.contactError st));
      auto. now apply contact_long_enough_iff. }
  split; [exact Hservice |].
  split.
  { unfold part_practice_date_given in Hdate.
    destruct (Part000.service_practice (Part000.formData st));
      [| reflexivity].
    specialize (Hdate eq_refl). rewrite Hv in Hdate |- *.
    exists (firstn 6 (strip_non_digits v)).
    split; [now rewrite remove_first_hyphen_formatted_date |].
    split; [apply six_digits_all_digits |].
    rewrite length_formatPracticeDate in Hdate. cbv zeta in Hdate.
    rewrite length_firstn.
    destruct (Nat.min 6 (length (strip_non_digits v)) <=? 4) eqn:E;
      [apply Nat.leb_le in E |]; lia. }
  split.
  { destruct Hhope as [E | Ho]; [| exact Ho].
    now elim Htime. }
  split; [exact Hprivacy | exact Hlabel].
Qed.

Lemma part_sent_invariant_initial : part_sent_invariant Part000.initial.
Proof.
  repeat split; simpl; auto.
  exists []; reflexivity.
Qed.

Lemma part_sent_invariant_dispatch ev st :
  part_invariant st -> part_sent_invariant st ->
  part_sent_invariant (Part000.dispatch proto_member ev st).
Proof.
  intros Hinv Hsent. pose proof Hsent as (Hc & Hl & Hh & Hreq).
  unfold Part000.dispatch, Part000.fire.
  destruct ev;
    repeat match goal with
           | |- context [if ?b then _ else _] => destruct b eqn:?
           end;
    try exact Hsent;
    try (repeat split; simpl; auto; fail).
  - repeat split; simpl; auto.
    now apply ClickSourceHandler_with_prefix.
  - repeat split; simpl; auto. exists value; reflexivity.
  - repeat split; simpl; auto. right; exists o; reflexivity.
  - repeat split; simpl; auto.
    apply Forall_app; split; [exact Hreq |].
    constructor; [| constructor].
    apply part_valid_payload_ok; auto.
    match goal with
    | H : (_ && _)%bool = true |- _ => now apply andb_true_iff in H
    end.
  - unfold Part000.handleSubmit_settle.
    destruct (Fetch.try_result o); repeat split; simpl; auto.
Qed.

Lemma part_reachable_sent st :
  Part000.reachable proto_member st -> part_sent_invariant st.
Proof.
  induction 1 as [| ev st Hr IH].
  - apply part_sent_invariant_initial.
  - apply part_sent_invariant_dispatch; auto.
    now apply part_reachable_invariant with (proto_member := proto_member).
Qed.

End SentPayloads.

(** X9.  Every payload the second variant sends is filled in: a name, a
    mobile number of ten or eleven digits beginning with "010" or "011" in
    display shape, at least one service, a practice date of six digits with
    the practice service and null without it, one of the three hope-time
    options, the privacy consent, and an attribution label that begins with
    the campaign constant. *)
Theorem part_sent_payloads_filled_in :
  forall (proto_member : jsstring -> option jsstring)
         (st : Part000.State) (d : Part000.SubmitData),
    Part000.reachable proto_member st ->
    In d (Part000.requests st) ->
    part_payload_ok d.
Proof.
  intros pm st d Hr Hin.
  destruct (part_reachable_sent pm st Hr) as (_ & _ & _ & Hall).
  rewrite Forall_forall in Hall. now apply Hall.
Qed.

Lemma part_sent_payloads_filled_in_witness :
  Part000.reachable (fun _ => None)
    (Part000.dispatch (fun _ => None) Part000.SubmitClick part_filled)
  /\ In (Part000.submitData part_filled)
       (Part000.requests
          (Part000.dispatch (fun _ => None) Part000.SubmitClick part_filled))
  /\ part_payload_ok (Part000.submitData part_filled).
Proof.
  assert (Hr : Part000.reachable (fun _ => None)
                 (Part000.dispatch (fun _ => None) Part000.SubmitClick
                    part_filled))
    by (constructor; apply part_reachable_run; constructor).
  assert (Hin : In (Part000.submitData part_filled)
                  (Part000.requests
                     (Part000.dispatch (fun _ => None) Part000.SubmitClick
                        part_filled)))
    by (vm_compute; auto).
  split; [exact Hr |]. split; [exact Hin |].
  exact (part_sent_payloads_filled_in _ _ _ Hr Hin).
Defined.

Section PageSentPayloads.

Variable proto_member : jsstring -> option jsstring.

(** The payload built from a valid form of the first variant. *)
Lemma page_valid_payload_ok (st : Page.State) :
  page_invariant st -> page_sent_invariant st ->
  Page.isFormValid st = true ->
  page_payload_ok (Page.submitData st).
Proof.
  intros (_ & _ & Herr) (Hcontact & Hlabel & _) Hvalid.
  apply page_isFormValid_iff in Hvalid as (Hname & [Hlong Hnone] & _).
  unfold page_payload_ok, Page.submitData; cbn [Page.sd_name
    Page.sd_contact Page.sd_click_source].
  split; [exact Hname |]. split; [| exact Hlabel].
  apply (valid_contact_is_mobile _ (Page.contactError st)); auto.
  now apply contact_long_enough_iff.
Qed.

Lemma page_sent_invariant_initial : page_sent_invariant Page.initial.
Proof.
  split; [exists []; reflexivity |].
  split; [apply (startsWith_app_self Page.homepageName []) | constructor].
Qed.

Lemma page_sent_invariant_dispatch ev st :
  page_invariant st -> page_sent_invariant st ->
  page_sent_invariant (Page.dispatch proto_member ev st).
Proof.
  intros Hinv Hsent. pose proof Hsent as (Hc & Hl & Hreq).
  unfold Page.dispatch, Page.fire.
  destruct ev;
    repeat match goal with
           | |- context [if ?b then _ else _] => destruct b eqn:?
           end;
    try exact Hsent;
    try (split; [| split]; cbn; auto; fail).
  - split; [| split]; cbn; auto.
    now apply ClickSourceHandler_with_prefix.
  - split; [| split]; cbn; auto. exists value; reflexivity.
  - split; [| split]; cbn; auto.
    apply Forall_app; split; [exact Hreq |].
    constructor; [| constructor].
    apply page_valid_payload_ok; auto.
    match goal with
    | H : (_ && _)%bool = true |- _ => now apply andb_true_iff in H
    end.
  - unfold Page.handleSubmit_settle.
    destruct (Fetch.try_result o); split; [| split | | split]; cbn; auto.
Qed.

Lemma page_reachable_sent st :
  Page.reachable proto_member st -> page_sent_invariant st.
Proof.
  induction 1 as [| ev st Hr IH].
  - apply page_sent_invariant_initial.
  - apply page_sent_invariant_dispatch; auto.
    now apply page_reachable_invariant with (proto_member := proto_member).
Qed.

End PageSentPayloads.

(** X10.  Every payload the first variant sends has a name, a mobile number
    of ten or eleven digits beginning with "010" or "011" in display shape,
    and an attribution label that begins with the campaign constant. *)
Theorem page_sent_payloads_filled_in :
  forall (proto_member : jsstring -> option jsstring)
         (st : Page.State) (d : Page.SubmitData),
    Page.reachable proto_member st ->
    In d (Page.requests st) ->
    page_payload_ok d.
Proof.
  intros pm st d Hr Hin.
  destruct (page_reachable_sent pm st Hr) as (_ & _ & Hall).
  rewrite Forall_forall in Hall. now apply Hall.
Qed.

Lemma page_sent_payloads_filled_in_witness :
  Page.reachable (fun _ => None)
    (Page.dispatch (fun _ => None) Page.SubmitClick page_filled)
  /\ In (Page.submitData page_filled)
       (Page.requests
          (Page.dispatch (fun _ => None) Page.SubmitClick page_filled))
  /\ page_payload_ok (Page.submitData page_filled).
Proof.
  assert (Hr : Page.reachable (fun _ => None)
                 (Page.dispatch (fun _ => None) Page.SubmitClick
                    page_filled))
    by (constructor; apply page_reachable_run; constructor).
  assert (Hin : In (Page.submitData page_filled)
                  (Page.requests
                     (Page.dispatch (fun _ => None) Page.SubmitClick
                        page_filled)))
    by (vm_compute; auto).
  split; [exact Hr |]. split; [exact Hin |].
  exact (page_sent_payloads_filled_in _ _ _ Hr Hin).
Defined.

(** ** What the first variant never changes *)

Section PageFixedFields.

Variable proto_member : jsstring -> option jsstring.

Lemma page_fixed_fields_initial : page_fixed_fields Page.initial.
Proof. unfold page_fixed_fields; cbn -[lit]. tauto. Qed.

Lemma page_fixed_fields_dispatch ev st :
  page_fixed_fields st ->
  page_fixed_fields (Page.dispatch proto_member ev st).
Proof.
  intros Hfix. pose proof Hfix as (Hshow & Hrest).
  unfold Page.dispatch, Page.fire. rewrite Hshow.
  destruct ev; cbn [andb];
    repeat match goal with
           | |- context [if ?b then _ else _] => destruct b eqn:?
           end;
    try exact Hfix;
    try (unfold Page.handleSubmit_settle;
         destruct (Fetch.try_result o));
    unfold page_fixed_fields in *; cbn -[lit] in *; tauto.
Qed.

Lemma page_fixed_payload (st : Page.State) :
  page_fixed_fields st -> page_payload_fixed (Page.submitData st).
Proof.
  unfold page_fixed_fields, page_payload_fixed, Page.submitData.
  cbn -[lit].
  intros (_ & _ & _ & _ & -> & -> & -> & -> & -> & -> & -> & -> & -> & H).
  cbn -[lit]. tauto.
Qed.

Lemma page_reachable_fixed st :
  Page.reachable proto_member st ->
  page_fixed_fields st /\ Forall page_payload_fixed (Page.requests st).
Proof.
  induction 1 as [| ev st Hr [Hfix Hall]].
  - split; [apply page_fixed_fields_initial | constructor].
  - split; [now apply page_fixed_fields_dispatch |].
    unfold Page.dispatch, Page.fire.
    destruct ev;
      repeat match goal with
             | |- context [if ?b then _ else _] => destruct b eqn:?
             end;
      try exact Hall;
      try (unfold Page.handleSubmit_settle;
           destruct (Fetch.try_result o); exact Hall).
    cbn -[lit]. apply Forall_app; split; [exact Hall |].
    constructor; [| constructor]. now apply page_fixed_payload.
Qed.

End PageFixedFields.

(** X11.  On the first variant the course dialog is never shown, so no
    course is ever selected or stored, and no control changes the form
    type: in every state the page can be in, and in every payload it has
    sent, the type is "consultation", the consultation members hold their
    initial values (status "상담대기"), [practice_place] is left out,
    [education], [hope_course] and [reason] are empty, and
    [employment_after_cert] is empty, "O" or "X". *)
Theorem page_course_dialog_never_shown :
  forall (proto_member : jsstring -> option jsstring) (st : Page.State),
    Page.reachable proto_member st ->
    page_fixed_fields st
    /\ forall d, In d (Page.requests st) -> page_payload_fixed d.
Proof.
  intros pm st Hr.
  destruct (page_reachable_fixed pm st Hr) as [Hfix Hall].
  split; [exact Hfix |]. now apply Forall_forall.
Qed.

Lemma page_course_dialog_never_shown_witness :
  Page.reachable (fun _ => None)
    (Page.dispatch (fun _ => None) Page.SubmitClick page_filled)
  /\ Page.showCourseModal
       (Page.dispatch (fun _ => None) Page.SubmitClick page_filled) = false
  /\ page_payload_fixed (Page.submitData page_filled).
Proof.
  assert (Hr : Page.reachable (fun _ => None)
                 (Page.dispatch (fun _ => None) Page.SubmitClick
                    page_filled))
    by (constructor; apply page_reachable_run; constructor).
  destruct (page_course_dialog_never_shown _ _ Hr) as [Hfix Hsent].
  split; [exact Hr |]. split; [apply Hfix |].
  apply Hsent. vm_compute; auto.
Defined.

(** ** Requests and their answers *)

Section Accounting.

Variable proto_member : jsstring -> option jsstring.

Ltac split_conditions :=
  repeat match goal with
         | |- context [if ?b then _ else _] => destruct b eqn:?
         end.

Ltac settle_numbers :=
  repeat match goal with
         | H : (_ =? _) = true |- _ => apply Nat.eqb_eq in H
         | H : (_ && _)%bool = true |- _ => apply andb_true_iff in H as [? ?]
         | H : negb _ = true |- _ => apply negb_true_iff in H
         end.

Lemma page_accounted_dispatch ev st :
  page_invariant st -> page_accounted st ->
  page_accounted (Page.dispatch proto_member ev st).
Proof.
  intros (_ & Hload & _) Hacc. pose proof Hacc as [Hreq Hlog].
  unfold Page.dispatch, Page.fire.
  destruct ev; split_conditions; try exact Hacc; settle_numbers;
    try (unfold Page.handleSubmit_settle;
         destruct (Fetch.try_result o));
    unfold page_accounted in *; cbn -[lit Nat.eqb] in *;
    rewrite ?length_app; cbn [length];
    try tauto.
  - (* next *)
    match goal with H : Page.step st = 1 |- _ => rewrite H in * end.
    cbn in *. tauto.
  - (* submit *)
    match goal with H : Page.step st = 2 |- _ => rewrite H in * end.
    match goal with H : Page.loading st = false |- _ => rewrite H in * end.
    cbn in *. lia.
  - (* thrown *)
    rewrite (Hload eq_refl) in *.
    match goal with H : Page.loading st = true |- _ => rewrite H in * end.
    cbn in *. lia.
  - (* success *)
    rewrite (Hload eq_refl) in *.
    match goal with H : Page.loading st = true |- _ => rewrite H in * end.
    cbn in *. lia.
Qed.

Lemma page_reachable_accounted st :
  Page.reachable proto_member st -> page_accounted st.
Proof.
  induction 1 as [| ev st Hr IH].
  - split; reflexivity.
  - apply page_accounted_dispatch; auto.
    now apply page_reachable_invariant with (proto_member := proto_member).
Qed.

Lemma part_accounted_dispatch ev st :
  part_invariant st -> part_accounted st ->
  part_accounted (Part000.dispatch proto_member ev st).
Proof.
  intros (_ & Hload & _) Hacc. pose proof Hacc as [Hreq Hlog].
  unfold Part000.dispatch, Part000.fire.
  destruct ev; split_conditions; try exact Hacc; settle_numbers;
    try (unfold Part000.handleSubmit_settle;
         destruct (Fetch.try_result o));
    unfold part_accounted in *; cbn -[lit Nat.eqb] in *;
    rewrite ?length_app; cbn [length];
    try tauto.
  - (* submit *)
    match goal with H : Part000.step st = 2 |- _ => rewrite H in * end.
    match goal with H : Part000.loading st = false |- _ => rewrite H in * end.
    cbn in *. lia.
  - (* thrown *)
    rewrite (Hload eq_refl) in *.
    match goal with H : Part000.loading st = true |- _ => rewrite H in * end.
    cbn in *. lia.
  - (* success *)
    rewrite (Hload eq_refl) in *.
    match goal with H : Part000.loading st = true |- _ => rewrite H in * end.
    cbn in *. lia.
Qed.

Lemma part_reachable_accounted st :
  Part000.reachable proto_member st -> part_accounted st.
Proof.
  induction 1 as [| ev st Hr IH].
  - split; reflexivity.
  - apply part_accounted_dispatch; auto.
    now apply part_reachable_invariant with (proto_member := proto_member).
Qed.

End Accounting.

(** X12.  On both pages, in every state the page can be in, each request
    sent is accounted for: the requests are as many as the alerts shown,
    plus one while a call is pending, plus one once step 3 is reached; and
    each alert has its [console.error] entry.  So at most one call is
    pending, nothing is sent after the successful request, and step 3 is
    not reached without a request. *)
Theorem requests_accounted_for :
  forall proto_member : jsstring -> option jsstring,
    (forall st : Page.State,
        Page.reachable proto_member st ->
        page_accounted st
        /\ length (Page.alerts st) <= length (Page.requests st)
        /\ (Page.step st = 3 -> Page.requests st <> []))
    /\
    (forall st : Part000.State,
        Part000.reachable proto_member st ->
        part_accounted st
        /\ length (Part000.alerts st) <= length (Part000.requests st)
        /\ (Part000.step st = 3 -> Part000.requests st <> [])).
Proof.
  intros pm; split; intros st Hr.
  - pose proof (page_reachable_accounted pm st Hr) as Hacc.
    split; [exact Hacc |]. destruct Hacc as [Hreq _].
    split; [lia |]. intros H3 Hnil.
    rewrite H3, Hnil in Hreq. simpl in Hreq. lia.
  - pose proof (part_reachable_accounted pm st Hr) as Hacc.
    split; [exact Hacc |]. destruct Hacc as [Hreq _].
    split; [lia |]. intros H3 Hnil.
    rewrite H3, Hnil in Hreq. simpl in Hreq. lia.
Qed.

Lemma requests_accounted_for_witness :
  Part000.reachable (fun _ => None)
    (Part000.run (fun _ => None)
       [Part000.SubmitClick; Part000.FetchSettled network_failure;
        Part000.SubmitClick] part_filled)
  /\ length (Part000.requests
               (Part000.run (fun _ => None)
                  [Part000.SubmitClick; Part000.FetchSettled network_failure;
                   Part000.SubmitClick] part_filled)) = 2
  /\ part_accounted
       (Part000.run (fun _ => None)
          [Part000.SubmitClick; Part000.FetchSettled network_failure;
           Part000.SubmitClick] part_filled).
Proof.
  assert (Hr : Part000.reachable (fun _ => None)
                 (Part000.run (fun _ => None)
                    [Part000.SubmitClick;
                     Part000.FetchSettled network_failure;
                     Part000.SubmitClick] part_filled))
    by (do 2 apply part_reachable_run; constructor).
  split; [exact Hr |]. split; [reflexivity |].
  apply (proj2 (requests_accounted_for (fun _ => None)) _ Hr).
Defined.

(** ** The service checkboxes of the second variant *)

(** X13.  Of the three service checkboxes at most one is shown checked, and
    none exactly when no service is stored.  On step 2 a click on one of
    them leaves exactly that one checked, and a form that can be submitted
    has one checked. *)
Theorem service_checkboxes_exclusive :
  forall (proto_member : jsstring -> option jsstring) (st : Part000.State),
    let boxes fd :=
      [practice_only_checked fd; employment_only_checked fd;
       practice_and_employment_checked fd] in
    let fd := Part000.formData st in
    length (filter (fun b : bool => b) (boxes fd)) <= 1
    /\ (boxes fd = [false; false; false]
        <-> Part000.service_practice fd = false
            /\ Part000.service_employment fd = false)
    /\ (Part000.step st = 2 ->
        boxes (Part000.formData
                 (Part000.dispatch proto_member Part000.PickPractice st))
        = [true; false; false]
        /\ boxes (Part000.formData
                    (Part000.dispatch proto_member Part000.PickEmployment st))
           = [false; true; false]
        /\ boxes (Part000.formData
                    (Part000.dispatch proto_member
                       Part000.PickPracticeAndEmployment st))
           = [false; false; true])
    /\ (Part000.isFormValid st = true ->
        length (filter (fun b : bool => b) (boxes fd)) = 1).
Proof.
  intros pm st boxes fd. subst boxes; cbv beta.
  unfold practice_only_checked, employment_only_checked,
    practice_and_employment_checked.
  split; [| split; [| split]].
  - destruct (Part000.service_practice fd),
      (Part000.service_employment fd); simpl; lia.
  - destruct (Part000.service_practice fd),
      (Part000.service_employment fd); simpl;
      split; try discriminate; try tauto; intros [? ?]; discriminate.
  - intros Hstep. unfold Part000.dispatch, Part000.fire.
    rewrite Hstep. cbn. auto.
  - intros Hvalid. apply part_isFormValid_iff in Hvalid
      as (_ & _ & Hservice & _).
    unfold part_service_chosen in Hservice. fold fd in Hservice.
    destruct (Part000.service_practice fd),
      (Part000.service_employment fd); simpl; try reflexivity.
    destruct Hservice; discriminate.
Qed.

Lemma service_checkboxes_exclusive_witness :
  Part000.step part_filled = 2
  /\ employment_only_checked
       (Part000.formData
          (Part000.dispatch (fun _ => None) Part000.PickEmployment
             part_filled)) = true.
Proof.
  assert (H2 : Part000.step part_filled = 2) by reflexivity.
  split; [exact H2 |].
  destruct (service_checkboxes_exclusive (fun _ => None) part_filled)
    as (_ & _ & Hclick & _).
  destruct (Hclick H2) as (_ & Hemp & _).
  exact (f_equal (fun l => nth 1 l false) Hemp).
Defined.

(** ** The stored contact and its message *)

Section StoredContact.

Lemma formatContact_fixed_point (value : jsstring) :
  Contact.formatContact (Contact.formatContact value)
  = Contact.formatContact value.
Proof.
  rewrite (formatContact_shape value).
  set (d := firstn 11 (strip_non_digits value)).
  rewrite formatContact_shape, strip_insert_separators.
  - f_equal. apply firstn_all2. subst d. apply firstn_le_length.
  - subst d. apply forallb_firstn, strip_non_digits_all_digits.
Qed.

Lemma contact_message_matches (contact contactError : jsstring) :
  contactError = snd (Contact.validateContact contact) ->
  (contactError = [] \/ contactError = Contact.prefix_error)
  /\ (contactError = [] <-> allowed_prefix contact).
Proof.
  intros ->.
  destruct (validateContact_cases contact) as [[Hok ->] | [Hbad ->]].
  - rewrite snd_pair. tauto.
  - rewrite snd_pair. pose proof prefix_error_nonempty. tauto.
Qed.

End StoredContact.

(** X14.  On both pages, in every state the page can be in, the stored
    contact is one that [formatContact] leaves unchanged, and the message
    under the field matches it: the message is empty or the prefix message,
    and it is empty exactly when the stored contact is empty or its digits
    begin with "010" or "011". *)
Theorem contact_message_in_step_with_contact :
  forall proto_member : jsstring -> option jsstring,
    (forall st : Page.State,
        Page.reachable proto_member st ->
        let contact := Page.contact (Page.formData st) in
        Page.formatContact contact = contact
        /\ (Page.contactError st = []
            \/ Page.contactError st = Contact.prefix_error)
        /\ (Page.contactError st = [] <-> allowed_prefix contact))
    /\
    (forall st : Part000.State,
        Part000.reachable proto_member st ->
        let contact := Part000.contact (Part000.formData st) in
        Part000.formatContact contact = contact
        /\ (Part000.contactError st = []
            \/ Part000.contactError st = Contact.prefix_error)
        /\ (Part000.contactError st = [] <-> allowed_prefix contact)).
Proof.
  intros pm; split; intros st Hr contact; subst contact.
  - destruct (page_reachable_invariant pm st Hr) as (_ & _ & Herr).
    destruct (page_reachable_sent pm st Hr) as ([v Hv] & _).
    split; [rewrite Hv; apply formatContact_fixed_point |].
    now apply contact_message_matches.
  - destruct (part_reachable_invariant pm st Hr) as (_ & _ & _ & Herr).
    destruct (part_reachable_sent pm st Hr) as ([v Hv] & _).
    split; [rewrite Hv; apply formatContact_fixed_point |].
    now apply contact_message_matches.
Qed.

Lemma contact_message_in_step_with_contact_witness :
  Part000.reachable (fun _ => None)
    (Part000.dispatch (fun _ => None)
       (Part000.ContactChange (lit "02-123")) Part000.initial)
  /\ Part000.contact
       (Part000.formData
          (Part000.dispatch (fun _ => None)
             (Part000.ContactChange (lit "02-123")) Part000.initial))
     = lit "021-23"
  /\ ~ allowed_prefix (lit "021-23").
Proof.
  assert (Hr : Part000.reachable (fun _ => None)
                 (Part000.dispatch (fun _ => None)
                    (Part000.ContactChange (lit "02-123")) Part000.initial))
    by (repeat constructor).
  destruct (proj2 (contact_message_in_step_with_contact (fun _ => None))
              _ Hr) as (_ & _ & Hiff).
  split; [exact Hr |]. split; [reflexivity |].
  intros Hallowed. apply Hiff in Hallowed. vm_compute in Hallowed.
  discriminate.
Defined.

(** ** Changing the service of the second variant *)

(** X15.  On step 2 of the second variant, choosing the practice service or
    both services keeps the stored practice date, but after the
    employment-only choice the date is gone: going back to a choice with
    practice leaves a form that cannot be submitted, whatever else is filled
    in, until a date is typed again. *)
Theorem practice_date_lost_by_employment_only :
  forall (proto_member : jsstring -> option jsstring) (st : Part000.State),
    Part000.step st = 2 ->
    let pick ev s := Part000.dispatch proto_member ev s in
    let date s := Part000.practice_planned_date (Part000.formData s) in
    date (pick Part000.PickPractice st) = date st
    /\ date (pick Part000.PickPracticeAndEmployment st) = date st
    /\ Part000.isFormValid
         (pick Part000.PickPractice (pick Part000.PickEmployment st)) = false
    /\ Part000.isFormValid
         (pick Part000.PickPracticeAndEmployment
            (pick Part000.PickEmployment st)) = false.
Proof.
  intros pm st Hstep pick date. subst pick date; cbv beta.
  unfold Part000.dispatch, Part000.fire. rewrite Hstep.
  cbn -[lit Part000.isFormValid]. rewrite Hstep.
  cbn -[lit Part000.isFormValid].
  unfold Part000.isFormValid. cbn -[lit].
  rewrite ?andb_false_r. auto.
Qed.

Lemma practice_date_lost_by_employment_only_witness :
  Part000.step part_filled = 2
  /\ Part000.isFormValid part_filled = true
  /\ Part000.isFormValid
       (Part000.run (fun _ => None)
          [Part000.PickEmployment; Part000.PickPractice] part_filled)
     = false.
Proof.
  assert (H2 : Part000.step part_filled = 2) by reflexivity.
  split; [exact H2 |]. split; [vm_compute; reflexivity |].
  destruct (practice_date_lost_by_employment_only (fun _ => None)
              part_filled H2) as (_ & _ & Hlost & _).
  exact Hlost.
Defined.

(** ** The confirmation step *)

(** X16.  Once step 3 is reached nothing more happens to the record: on
    both pages, whatever event follows, the form data, the message, the
    consent, the requests sent and the alerts shown stay as they are, no
    call is pending and the step stays 3. *)
Theorem confirmation_step_is_frozen :
  forall proto_member : jsstring -> option jsstring,
    (forall (st : Page.State) (ev : Page.Event),
        Page.reachable proto_member st ->
        Page.step st = 3 ->
        let st' := Page.dispatch proto_member ev st in
        Page.step st' = 3
        /\ Page.loading st' = false
        /\ Page.formData st' = Page.formData st
        /\ Page.contactError st' = Page.contactError st
        /\ Page.privacyAgreed st' = Page.privacyAgreed st
        /\ Page.requests st' = Page.requests st
        /\ Page.alerts st' = Page.alerts st)
    /\
    (forall (st : Part000.State) (ev : Part000.Event),
        Part000.reachable proto_member st ->
        Part000.step st = 3 ->
        let st' := Part000.dispatch proto_member ev st in
        Part000.step st' = 3
        /\ Part000.loading st' = false
        /\ Part000.formData st' = Part000.formData st
        /\ Part000.contactError st' = Part000.contactError st
        /\ Part000.privacyAgreed st' = Part000.privacyAgreed st
        /\ Part000.requests st' = Part000.requests st
        /\ Part000.alerts st' = Part000.alerts st).
Proof.
  intros pm; split; intros st ev Hr Hstep st'; subst st'.
  - destruct (page_reachable_invariant pm st Hr) as (_ & Hload & _).
    destruct (page_reachable_fixed pm st Hr) as [(Hshow & _) _].
    assert (Hidle : Page.loading st = false).
    { destruct (Page.loading st); [| reflexivity].
      specialize (Hload eq_refl). congruence. }
    unfold Page.dispatch, Page.fire. rewrite Hstep, Hidle, Hshow.
    destruct ev; cbn -[lit];
      repeat match goal with
             | |- context [if ?b then _ else _] => destruct b eqn:?
             end;
      cbn -[lit]; auto 10.
  - destruct (part_reachable_invariant pm st Hr) as (_ & Hload & _).
    assert (Hidle : Part000.loading st = false).
    { destruct (Part000.loading st); [| reflexivity].
      specialize (Hload eq_refl). congruence. }
    unfold Part000.dispatch, Part000.fire. rewrite Hstep, Hidle.
    destruct ev; cbn -[lit];
      repeat match goal with
             | |- context [if ?b then _ else _] => destruct b eqn:?
             end;
      cbn -[lit]; auto 10.
Qed.

Lemma confirmation_step_is_frozen_witness :
  Page.reachable (fun _ => None)
    (Page.run (fun _ => None)
       [Page.SubmitClick;
        Page.FetchSettled (Fetch.Resolves true (Fetch.BodyJson None))]
       page_filled)
  /\ Page.step
       (Page.run (fun _ => None)
          [Page.SubmitClick;
           Page.FetchSettled (Fetch.Resolves true (Fetch.BodyJson None))]
          page_filled) = 3
  /\ Page.requests
       (Page.run (fun _ => None)
          [Page.SubmitClick;
           Page.FetchSettled (Fetch.Resolves true (Fetch.BodyJson None));
           Page.SubmitClick]
          page_filled) = [Page.submitData page_filled].
Proof.
  assert (Hr : Page.reachable (fun _ => None)
                 (Page.run (fun _ => None)
                    [Page.SubmitClick;
                     Page.FetchSettled
                       (Fetch.Resolves true (Fetch.BodyJson None))]
                    page_filled))
    by (do 2 apply page_reachable_run; constructor).
  assert (H3 : Page.step
                 (Page.run (fun _ => None)
                    [Page.SubmitClick;
                     Page.FetchSettled
                       (Fetch.Resolves true (Fetch.BodyJson None))]
                    page_filled) = 3) by reflexivity.
  split; [exact Hr |]. split; [exact H3 |].
  destruct (proj1 (confirmation_step_is_frozen (fun _ => None))
              _ Page.SubmitClick Hr H3) as (_ & _ & _ & _ & _ & Hreq & _).
  etransitivity; [exact Hreq | reflexivity].
Defined.
